(** * Broadcast synchronisation backend: a shallow embedding and its properties

    The repository holds two variants of one Deno server:
    - [src/server.ts]: the WebSocket router mutates the in-memory cache
      (module [Server] below);
    - [src/unnamed/part_000]: the WebSocket router relays messages and the
      HTTP API mutates the cache (module [Relay] below).

    Both are embedded over a common layer [JS] that gives the part of the
    JavaScript semantics the handlers rely on: values as [JSON.parse] builds
    them, truthiness, strict equality, property reads and writes, object
    spread and the [-] operator.  Handlers are written in a small monad
    [Eff] threading the process state, the messages handed to
    [WebSocket.send] and a possibly thrown exception. *)

From Stdlib Require Import Floats String Ascii List Bool Arith Lia.
From Stdlib Require Import DecimalString Uint63 ZArith.
From stdpp Require Import base option gmap.
Import ListNotations.

Set Warnings "-register-all".

Local Open Scope string_scope.
Local Open Scope list_scope.

(** ** JavaScript values and the operators the handlers use *)
Module JS.

(** A value as [JSON.parse] returns it, plus [undefined] (the value of a
    missing property).  Numbers are IEEE-754 binary64, as in the language.
    A string is a sequence of code units (those below 256 are representable).
    An array carries, besides its elements, the named properties assigned to
    it afterwards ([own] is empty on a freshly parsed array).  An object is
    the association list of its own enumerable properties; the first binding
    of a key is the live one.  The relative order of keys matters only to the
    text [JSON.stringify] prints, which is not modelled. *)
Inductive value : Type :=
| VUndef
| VNull
| VBool (b : bool)
| VNum (x : float)
| VStr (s : string)
| VArr (elems : list value) (own : list (string * value))
| VObj (own : list (string * value)).

(** What a [throw] carries: the errors the language raises, the error of a
    [send] on a socket that is not open, and a rejection of the host (a
    request body that is not JSON, a failed handshake).  No [catch] of the
    two servers looks at what it caught. *)
Inductive exn : Type :=
| TypeError
| SyntaxError
| InvalidStateError
| Rejected.

(** The completion of an expression or statement: a value, or an exception. *)
Inductive completion (A : Type) : Type :=
| Normal (a : A)
| Throw (e : exn).
Arguments Normal {A} a.
Arguments Throw {A} e.

Definition cbind {A B} (c : completion A) (k : A -> completion B) : completion B :=
  match c with
  | Normal a => k a
  | Throw e => Throw e
  end.

(** Library routines of the host that the model takes as given: the two
    conversions behind [ToNumber] on strings and arrays, and the successive
    readings of [Date.now()]. *)
Record Runtime : Type := {
  StringToNumber : string -> float;
  ArrayJoin : list value -> completion string;
  Date_now : nat -> float
}.

(** [ToBoolean]. *)
Definition is_nan (x : float) : bool := negb (PrimFloat.eqb x x).

Definition truthy (v : value) : bool :=
  match v with
  | VUndef | VNull => false
  | VBool b => b
  | VNum x => negb (PrimFloat.eqb x 0%float || is_nan x)
  | VStr s => negb (String.eqb s "")
  | VArr _ _ | VObj _ => true
  end.

(** [a || b] and [a && b] on values. *)
Definition js_or (a b : value) : value := if truthy a then a else b.
Definition js_and (a b : value) : value := if truthy a then b else a.

(** [a === b].  Two arrays or objects are equal only when they are the same
    reference; every use in the servers compares values that come from
    different [JSON.parse] calls or a value with a string literal, so on
    arrays and objects the answer is [false]. *)
Definition strict_eq (a b : value) : bool :=
  match a, b with
  | VUndef, VUndef => true
  | VNull, VNull => true
  | VBool x, VBool y => Bool.eqb x y
  | VNum x, VNum y => PrimFloat.eqb x y
  | VStr x, VStr y => String.eqb x y
  | _, _ => false
  end.

Fixpoint lookup_own (k : string) (l : list (string * value)) : option value :=
  match l with
  | [] => None
  | (k', v) :: l' => if String.eqb k k' then Some v else lookup_own k l'
  end.

Definition has_own (k : string) (l : list (string * value)) : bool :=
  match lookup_own k l with Some _ => true | None => false end.

(** [v.k] for the property names the servers read ([type], [data],
    [userType], [userName], [items], [id], [quantity], [message], the cache
    fields): none is an array index, [length] or a member of a built-in
    prototype, so on a primitive the read gives [undefined], on an array the
    named property if one was assigned, on an object the own property.
    Reading a property of [undefined] or [null] throws. *)
Definition getProp (v : value) (k : string) : completion value :=
  match v with
  | VUndef | VNull => Throw TypeError
  | VBool _ | VNum _ | VStr _ => Normal VUndef
  | VArr _ own | VObj own =>
      Normal (match lookup_own k own with Some x => x | None => VUndef end)
  end.

(** [CreateDataProperty]: overwrite the binding of [k] where it stands, or
    add it after the others. *)
Fixpoint define_own (k : string) (v : value) (l : list (string * value))
  : list (string * value) :=
  match l with
  | [] => [(k, v)]
  | (k', v') :: l' =>
      if String.eqb k k' then (k, v) :: l' else (k', v') :: define_own k v l'
  end.

(** [v.k = x] in strict code (both servers are ES modules), for the same
    property names as [getProp]: a write to a primitive throws. *)
Definition setProp (v : value) (k : string) (x : value) : completion value :=
  match v with
  | VArr es own => Normal (VArr es (define_own k x own))
  | VObj own => Normal (VObj (define_own k x own))
  | _ => Throw TypeError
  end.

(** The decimal name of an array index. *)
Definition index_name (i : nat) : string :=
  NilEmpty.string_of_uint (Nat.to_uint i).

Fixpoint indexed {A} (f : A -> value) (i : nat) (l : list A) : list (string * value) :=
  match l with
  | [] => []
  | a :: l' => (index_name i, f a) :: indexed f (S i) l'
  end.

Definition chars (s : string) : list ascii := list_ascii_of_string s.

(** The own enumerable properties [{...v}] and [Object.assign(_, v)] copy:
    none for [undefined], [null], booleans and numbers, the code units of a
    string under their indices, the elements of an array under their indices
    followed by its named properties, the properties of an object. *)
Definition own_enumerable (v : value) : list (string * value) :=
  match v with
  | VUndef | VNull | VBool _ | VNum _ => []
  | VStr s => indexed (fun c => VStr (String c "")) 0 (chars s)
  | VArr es own => indexed (fun x => x) 0 es ++ own
  | VObj own => own
  end.

(** [{...l, ...v}]: each property of [v] is defined on the object literal
    built so far. *)
Definition spread (v : value) (l : list (string * value)) : list (string * value) :=
  fold_left (fun acc kv => define_own (fst kv) (snd kv) acc) (own_enumerable v) l.

(** [ToNumber].  A parsed object or array holds no callable: on an object
    with an own [toString] both conversion methods fail and the conversion
    throws, otherwise the object prints as ["[object Object]"], which is not
    a number; an array is joined (or, when [join] is shadowed, printed as
    ["[object Array]"]) and the text is converted; joining throws when an
    element cannot be printed. *)
Definition ToNumber (rt : Runtime) (v : value) : completion float :=
  match v with
  | VUndef => Normal nan
  | VNull => Normal 0%float
  | VBool b => Normal (if b then 1%float else 0%float)
  | VNum x => Normal x
  | VStr s => Normal (StringToNumber rt s)
  | VArr es own =>
      if has_own "toString" own then Throw TypeError
      else if has_own "join" own then Normal nan
      else cbind (ArrayJoin rt es) (fun text => Normal (StringToNumber rt text))
  | VObj own =>
      if has_own "toString" own then Throw TypeError else Normal nan
  end.

(** [a - b]. *)
Definition js_sub (rt : Runtime) (a b : value) : completion value :=
  cbind (ToNumber rt a) (fun x =>
  cbind (ToNumber rt b) (fun y =>
  Normal (VNum (x - y)%float))).

(** [arr.find(pred)] on the elements of an array: the first element (with
    its position) for which the callback answers true; the callback may
    throw, and is not called past the first hit. *)
Fixpoint find_from (pred : value -> completion bool) (i : nat) (l : list value)
  : completion (option (nat * value)) :=
  match l with
  | [] => Normal None
  | s :: l' =>
      cbind (pred s) (fun hit =>
      if hit then Normal (Some (i, s)) else find_from pred (S i) l')
  end.

Definition find (pred : value -> completion bool) (l : list value) :=
  find_from pred 0 l.

(** [arr.push(x)]: a value that is not an array has no callable [push]. *)
Definition push (arr x : value) : completion value :=
  match arr with
  | VArr es own => Normal (VArr (es ++ [x]) own)
  | _ => Throw TypeError
  end.

(** [s.replace(pat, rep)] with a string pattern: the first occurrence. *)
Fixpoint replace_first (pat rep s : string) : string :=
  if String.prefix pat s
  then rep ++ String.substring (String.length pat) (String.length s - String.length pat) s
  else match s with
       | EmptyString => s
       | String c s' => String c (replace_first pat rep s')
       end.

(** Object and array literals of the sources. *)
Definition obj (l : list (string * value)) : value := VObj l.
Definition arr (l : list value) : value := VArr l [].

End JS.

(** ** Handlers as state transformers that emit messages and may throw *)
Module Eff.
Import JS.

Section Monad.
Context {S O : Type}.

(** A statement runs from a state to a completion, the state it leaves (also
    when it throws: what was mutated stays mutated) and the outputs emitted
    on the way, oldest first. *)
Definition M (A : Type) : Type := S -> completion A * S * list O.

Definition ret {A} (a : A) : M A := fun s => (Normal a, s, []).

Definition bind {A B} (m : M A) (k : A -> M B) : M B :=
  fun s =>
    match m s with
    | (Normal a, s1, o1) =>
        match k a s1 with
        | (r, s2, o2) => (r, s2, o1 ++ o2)
        end
    | (Throw e, s1, o1) => (Throw e, s1, o1)
    end.

Definition throw {A} (e : exn) : M A := fun s => (Throw e, s, []).

(** An expression that touches no state. *)
Definition lift {A} (c : completion A) : M A := fun s => (c, s, []).

Definition get : M S := fun s => (Normal s, s, []).
Definition gets {A} (f : S -> A) : M A := fun s => (Normal (f s), s, []).
Definition modify (f : S -> S) : M unit := fun s => (Normal tt, f s, []).
Definition emit (o : O) : M unit := fun s => (Normal tt, s, [o]).

(** [try { body } catch (error) { handler }]. *)
Definition try_catch {A} (body : M A) (handler : exn -> M A) : M A :=
  fun s =>
    match body s with
    | (Normal a, s1, o1) => (Normal a, s1, o1)
    | (Throw e, s1, o1) =>
        match handler e s1 with
        | (r, s2, o2) => (r, s2, o1 ++ o2)
        end
    end.

(** [l.forEach(body)]: the callback runs on each element in order; a throw
    ends the loop. *)
Fixpoint forEach {A} (l : list A) (body : A -> M unit) : M unit :=
  match l with
  | [] => ret tt
  | a :: l' => bind (body a) (fun _ => forEach l' body)
  end.

End Monad.

Arguments M : clear implicits.

Declare Scope eff_scope.
Delimit Scope eff_scope with eff.
Notation "x <- m ;; k" := (bind m (fun x => k))
  (at level 100, m at next level, right associativity) : eff_scope.
Notation "m ;;; k" := (bind m (fun _ => k))
  (at level 100, right associativity) : eff_scope.

End Eff.

(** ** [src/server.ts]: the router that keeps the cache *)
Module Server.
Import JS Eff.
Local Open Scope eff_scope.

(** A [WebSocket] object, known by its identity. *)
Definition conn : Type := nat.

(** [WebSocket.OPEN]. *)
Definition OPEN : nat := 1.

(** [const cache = { stockItems: [], sales: [], transactions: [], audit: [] }].
    [stockItems] is reassigned to whatever a [stock_update] carries, so it is
    any value; the other three fields are only pushed to or reset to [[]],
    so each stays an array, given by its elements. *)
Record Cache : Type := {
  stockItems : value;
  sales : list value;
  transactions : list value;
  audit : list value
}.

(** What [sessions.set(ws, ...)] stores. *)
Record Session : Type := {
  userType : value;
  userName : value;
  timestamp : value
}.

(** The module-level state, the [readyState] the transport gives each
    socket, and the number of [Date.now()] calls made so far. *)
Record World : Type := {
  connections : list conn;
  sessions : gmap conn Session;
  cache : Cache;
  readyState : conn -> nat;
  ticks : nat
}.

(** One message handed to the transport by [conn.send(JSON.stringify(message))]:
    the socket and the message that was serialised. *)
Definition Send : Type := (conn * value)%type.

Definition empty_cache : Cache :=
  {| stockItems := arr []; sales := []; transactions := []; audit := [] |}.

(** The state when the module has been loaded. *)
Definition init (ready : conn -> nat) : World :=
  {| connections := []; sessions := ∅; cache := empty_cache;
     readyState := ready; ticks := 0 |}.

Definition set_connections (f : list conn -> list conn) (w : World) : World :=
  {| connections := f (connections w); sessions := sessions w; cache := cache w;
     readyState := readyState w; ticks := ticks w |}.

Definition set_sessions (f : gmap conn Session -> gmap conn Session) (w : World) : World :=
  {| connections := connections w; sessions := f (sessions w); cache := cache w;
     readyState := readyState w; ticks := ticks w |}.

Definition set_cache (f : Cache -> Cache) (w : World) : World :=
  {| connections := connections w; sessions := sessions w; cache := f (cache w);
     readyState := readyState w; ticks := ticks w |}.

Definition set_readyState (ws : conn) (state : nat) (w : World) : World :=
  {| connections := connections w; sessions := sessions w; cache := cache w;
     readyState := fun c => if Nat.eqb c ws then state else readyState w c;
     ticks := ticks w |}.

Definition tick (w : World) : World :=
  {| connections := connections w; sessions := sessions w; cache := cache w;
     readyState := readyState w; ticks := S (ticks w) |}.

Definition set_stockItems (v : value) (c : Cache) : Cache :=
  {| stockItems := v; sales := sales c; transactions := transactions c; audit := audit c |}.

Definition push_sale (v : value) (c : Cache) : Cache :=
  {| stockItems := stockItems c; sales := sales c ++ [v];
     transactions := transactions c; audit := audit c |}.

Definition push_transaction (v : value) (c : Cache) : Cache :=
  {| stockItems := stockItems c; sales := sales c;
     transactions := transactions c ++ [v]; audit := audit c |}.

Definition push_audit (v : value) (c : Cache) : Cache :=
  {| stockItems := stockItems c; sales := sales c;
     transactions := transactions c; audit := audit c ++ [v] |}.

(** [Set.prototype.add] and [delete] on the insertion-ordered set. *)
Definition set_add (ws : conn) (l : list conn) : list conn :=
  if existsb (Nat.eqb ws) l then l else l ++ [ws].

Definition set_delete (ws : conn) (l : list conn) : list conn :=
  List.filter (fun c => negb (Nat.eqb c ws)) l.

(** An inbound frame, as [JSON.parse(event.data)] sees it: text that does not
    parse, or the parsed message. *)
Inductive frame : Type :=
| Malformed
| Parsed (message : value).

(** An HTTP request: the [upgrade] header, [url.pathname] and the method. *)
Record Request : Type := {
  upgrade : option string;
  pathname : string;
  method : string
}.

(** A response: a JSON body with its status, the answer to a WebSocket
    handshake, the answer of the database probe ([test-supabase], an
    external service that touches neither cache nor registry) and a file
    served by [serveDir]. *)
Inductive Response : Type :=
| JsonResponse (status : nat) (body : value)
| UpgradeResponse
| ProbeResponse
| StaticResponse.

Definition float_of_nat (n : nat) : float :=
  PrimFloat.of_uint63 (Uint63.of_Z (Z.of_nat n)).

(** [v.length]. *)
Definition getLength (v : value) : completion value :=
  match v with
  | VUndef | VNull => Throw TypeError
  | VBool _ | VNum _ => Normal VUndef
  | VStr s => Normal (VNum (float_of_nat (String.length s)))
  | VArr es _ => Normal (VNum (float_of_nat (List.length es)))
  | VObj own => Normal (match lookup_own "length" own with Some x => x | None => VUndef end)
  end.

Section WithRuntime.
Variable rt : Runtime.

Abbreviation Handler := (M World Send).

(** [Date.now()]. *)
Definition now : Handler value :=
  fun w => (Normal (VNum (Date_now rt (ticks w))), tick w, []).

(** [ws.send(JSON.stringify(message))].  Deno's [send] throws unless the
    socket is open. *)
Definition send (ws : conn) (message : value) : Handler unit :=
  state <- gets (fun w => readyState w ws) ;;
  if Nat.eqb state OPEN then emit (ws, message) else throw InvalidStateError.

(** The callback of [connections.forEach] in [broadcast]. *)
Definition deliver (message : value) (c : conn) : Handler unit :=
  state <- gets (fun w => readyState w c) ;;
  if Nat.eqb state OPEN then send c message else ret tt.

(** [broadcast]: the message goes to each registered connection found open,
    in the order of the set. *)
Definition broadcast (message : value) : Handler unit :=
  conns <- gets connections ;;
  forEach conns (deliver message).

(** The callback of [cache.stockItems.find]: [s.id === item.id]. *)
Definition same_id (item s : value) : completion bool :=
  cbind (getProp s "id") (fun sid =>
  cbind (getProp item "id") (fun iid =>
  Normal (strict_eq sid iid))).

(** The callback of [items.forEach] in [updateStockLevels]. *)
Definition adjustStock (item : value) : Handler unit :=
  stock <- gets (fun w => stockItems (cache w)) ;;
  match stock with
  | VArr elems own =>
      found <- lift (find (same_id item) elems) ;;
      match found with
      | Some (i, stockItem) =>
          if truthy stockItem then
            q <- lift (getProp stockItem "quantity") ;;
            d <- lift (getProp item "quantity") ;;
            r <- lift (js_sub rt q d) ;;
            stockItem' <- lift (setProp stockItem "quantity" r) ;;
            modify (set_cache (set_stockItems (VArr (<[i := stockItem']> elems) own)))
          else ret tt
      | None => ret tt
      end
  | _ => throw TypeError
  end.

Definition updateStockLevels (items : value) : Handler unit :=
  match items with
  | VArr elems _ => forEach elems adjustStock
  | _ => throw TypeError
  end.

Definition logAudit (action : string) (data : value) : Handler unit :=
  t <- now ;;
  let auditEntry := obj [("action", VStr action); ("data", data); ("timestamp", t)] in
  modify (set_cache (push_audit auditEntry)) ;;;
  entries <- gets (fun w => audit (cache w)) ;;
  broadcast (obj [("type", VStr "audit_updated"); ("data", arr entries)]).

Definition is_type (ty : value) (name : string) : bool := strict_eq ty (VStr name).

(** The [switch (message.type)] of [ws.onmessage]. *)
Definition dispatch (ws : conn) (message : value) : Handler unit :=
  ty <- lift (getProp message "type") ;;
  if is_type ty "auth" then
    ut <- lift (getProp message "userType") ;;
    un <- lift (getProp message "userName") ;;
    if truthy (js_and ut un) then
      t <- now ;;
      modify (set_sessions (insert ws {| userType := ut; userName := un; timestamp := t |})) ;;;
      c <- gets cache ;;
      send ws (obj [("type", VStr "initial_data");
                    ("stockItems", stockItems c);
                    ("sales", arr (sales c));
                    ("transactions", arr (transactions c))])
    else ret tt
  else if is_type ty "stock_update" then
    data <- lift (getProp message "data") ;;
    modify (set_cache (set_stockItems (js_or data (arr [])))) ;;;
    stock <- gets (fun w => stockItems (cache w)) ;;
    broadcast (obj [("type", VStr "stock_updated"); ("data", stock)])
  else if is_type ty "sale_update" then
    data <- lift (getProp message "data") ;;
    if truthy data then
      t <- now ;;
      modify (set_cache (push_sale (obj (define_own "timestamp" t (spread data []))))) ;;;
      all <- gets (fun w => sales (cache w)) ;;
      broadcast (obj [("type", VStr "sales_updated"); ("data", arr all)]) ;;;
      items <- lift (getProp data "items") ;;
      (if truthy items then updateStockLevels items else ret tt) ;;;
      logAudit "sale_created" data
    else ret tt
  else if is_type ty "transaction_update" then
    data <- lift (getProp message "data") ;;
    if truthy data then
      t <- now ;;
      modify (set_cache (push_transaction (obj (define_own "timestamp" t (spread data []))))) ;;;
      all <- gets (fun w => transactions (cache w)) ;;
      broadcast (obj [("type", VStr "transactions_updated"); ("data", arr all)]) ;;;
      logAudit "transaction_created" data
    else ret tt
  else if is_type ty "sync_request" then
    c <- gets cache ;;
    send ws (obj [("type", VStr "sync_response");
                  ("stockItems", stockItems c);
                  ("sales", arr (sales c));
                  ("transactions", arr (transactions c));
                  ("audit", arr (audit c))])
  else ret tt.

Definition error_notice : value :=
  obj [("type", VStr "error"); ("message", VStr "Failed to process message")].

(** [ws.onmessage]. *)
Definition onmessage (ws : conn) (f : frame) : Handler unit :=
  try_catch
    (match f with
     | Malformed => throw SyntaxError
     | Parsed message => dispatch ws message
     end)
    (fun _ => send ws error_notice).

(** [handleWebSocket(ws)] registers the socket (and installs the handlers
    below on it). *)
Definition handleWebSocket (ws : conn) : Handler unit :=
  modify (set_connections (set_add ws)).

Definition onopen (ws : conn) : Handler unit :=
  send ws (obj [("type", VStr "connected"); ("message", VStr "Connected to server")]).

Definition onclose (ws : conn) : Handler unit :=
  modify (set_connections (set_delete ws)) ;;;
  modify (set_sessions (delete ws)).

Definition onerror (ws : conn) : Handler unit :=
  modify (set_connections (set_delete ws)) ;;;
  modify (set_sessions (delete ws)).

(** [handleRequest].  [socket] is what [Deno.upgradeWebSocket(req)] returns
    when it is called. *)
Definition handleRequest (socket : completion conn) (req : Request) : Handler Response :=
  if match upgrade req with Some h => String.eqb h "websocket" | None => false end then
    ws <- lift socket ;;
    handleWebSocket ws ;;;
    ret UpgradeResponse
  else if String.prefix "/api/" (pathname req) then
    let path := replace_first "/api/" "" (pathname req) in
    let not_found := ret (JsonResponse 404 (obj [("error", VStr "API endpoint not found")])) in
    if String.eqb path "health" then
      w <- get ;;
      n <- lift (getLength (stockItems (cache w))) ;;
      ret (JsonResponse 200 (obj
        [("status", VStr "ok");
         ("connections", VNum (float_of_nat (List.length (connections w))));
         ("cacheSizes", obj
            [("stockItems", n);
             ("sales", VNum (float_of_nat (List.length (sales (cache w)))));
             ("transactions", VNum (float_of_nat (List.length (transactions (cache w)))));
             ("audit", VNum (float_of_nat (List.length (audit (cache w)))))])]))
    else if String.eqb path "clear-cache" then
      if String.eqb (method req) "POST" then
        modify (set_cache (fun _ => empty_cache)) ;;;
        broadcast (obj [("type", VStr "cache_cleared")]) ;;;
        ret (JsonResponse 200 (obj [("message", VStr "Cache cleared successfully")]))
      else not_found
    else if String.eqb path "test-supabase" then ret ProbeResponse
    else not_found
  else ret StaticResponse.

(** What the host delivers to the program. *)
Inductive event : Type :=
| EvRequest (socket : completion conn) (req : Request)
| EvTransport (ws : conn) (state : nat)
| EvOpen (ws : conn)
| EvMessage (ws : conn) (f : frame)
| EvClose (ws : conn)
| EvError (ws : conn).

(** What a handler leaves behind: the state and the messages sent.  Its
    result, or the exception that escaped it, goes to the host. *)
Definition quiet {A} (m : Handler A) : World -> World * list Send :=
  fun w => match m w with (_, w', out) => (w', out) end.

(** One event handled to completion. *)
Definition step (ev : event) : World -> World * list Send :=
  match ev with
  | EvRequest socket req => quiet (handleRequest socket req)
  | EvTransport ws state => fun w => (set_readyState ws state w, [])
  | EvOpen ws => quiet (onopen ws)
  | EvMessage ws f => quiet (onmessage ws f)
  | EvClose ws => quiet (onclose ws)
  | EvError ws => quiet (onerror ws)
  end.

(** The events handled one after the other. *)
Fixpoint run (evs : list event) (w : World) : World * list Send :=
  match evs with
  | [] => (w, [])
  | ev :: evs' =>
      match step ev w with
      | (w1, out1) =>
          match run evs' w1 with
          | (w2, out2) => (w2, out1 ++ out2)
          end
      end
  end.

End WithRuntime.

(** The registered connections whose transport is open, and what a broadcast
    of [message] hands to [send]: one copy for each of them, in the order of
    the registry. *)
Definition audience (w : World) : list conn :=
  List.filter (fun c => Nat.eqb (readyState w c) OPEN) (connections w).

Definition fanout (message : value) (w : World) : list Send :=
  map (fun c => (c, message)) (audience w).

(** The record a sale or transaction is stored as: [{...data, timestamp}]. *)
Definition stamped (rt : Runtime) (data : value) (n : nat) : value :=
  obj (define_own "timestamp" (VNum (Date_now rt n)) (spread data [])).

(** The audit entry [logAudit] builds at the [n]-th reading of the clock. *)
Definition audit_entry (rt : Runtime) (action : string) (data : value) (n : nat) : value :=
  obj [("action", VStr action); ("data", data); ("timestamp", VNum (Date_now rt n))].

(** What an accepted [auth] is answered with. *)
Definition initial_data (c : Cache) : value :=
  obj [("type", VStr "initial_data");
       ("stockItems", stockItems c);
       ("sales", arr (sales c));
       ("transactions", arr (transactions c))].

(** The snapshot a [sync_request] is answered with. *)
Definition snapshot (c : Cache) : value :=
  obj [("type", VStr "sync_response");
       ("stockItems", stockItems c);
       ("sales", arr (sales c));
       ("transactions", arr (transactions c));
       ("audit", arr (audit c))].

(** A value that is neither an array nor an object. *)
Definition primitive (v : value) : bool :=
  match v with
  | VArr _ _ | VObj _ => false
  | _ => true
  end.

(** A record: an object whose [quantity], when it has one, is a primitive. *)
Definition record (v : value) : bool :=
  match v with
  | VObj own =>
      match lookup_own "quantity" own with
      | Some q => primitive q
      | None => true
      end
  | _ => false
  end.

(** The line item [item] names the stock item [s]: [s.id === item.id]. *)
Definition names (item s : value) : Prop :=
  exists sid iid,
    getProp s "id" = Normal sid /\ getProp item "id" = Normal iid /\
    strict_eq sid iid = true.

(** The effect of one line item on the stock collection, as the stock
    adjustment is specified: when no stock item carries the identifier the
    collection is unchanged; otherwise the first stock item that carries it
    has its quantity replaced by the difference, every other item and every
    other property being left as they are. *)
Inductive adjusted (rt : Runtime) (item : value) (stock : list value)
  : list value -> Prop :=
| adjusted_miss :
    (forall s, In s stock -> ~ names item s) ->
    adjusted rt item stock stock
| adjusted_hit (i : nat) (s q d r s' : value) :
    stock !! i = Some s ->
    names item s ->
    (forall j s0, j < i -> stock !! j = Some s0 -> ~ names item s0) ->
    getProp s "quantity" = Normal q ->
    getProp item "quantity" = Normal d ->
    js_sub rt q d = Normal r ->
    setProp s "quantity" r = Normal s' ->
    adjusted rt item stock (<[i := s']> stock).

(** The line items applied one after the other. *)
Inductive adjusted_all (rt : Runtime) : list value -> list value -> list value -> Prop :=
| adjusted_nil stock : adjusted_all rt [] stock stock
| adjusted_cons item items stock mid stock' :
    adjusted rt item stock mid ->
    adjusted_all rt items mid stock' ->
    adjusted_all rt (item :: items) stock stock'.

(** The payload and the cached stock have the shape the stock adjustment
    expects: there are no line items, or the line items and the stock
    collection are arrays of records. *)
Definition well_shaped (items stock : value) : Prop :=
  truthy items = false \/
  exists line iown elems sown,
    items = VArr line iown /\ stock = VArr elems sown /\
    Forall (fun item => record item = true) line /\
    Forall (fun s => record s = true) elems.

(** The stock collection after a sale whose line items are [items]. *)
Inductive stock_after (rt : Runtime) (items before : value) : value -> Prop :=
| stock_untouched :
    truthy items = false ->
    stock_after rt items before before
| stock_adjusted line iown elems sown elems' :
    items = VArr line iown ->
    before = VArr elems sown ->
    adjusted_all rt line elems elems' ->
    stock_after rt items before (VArr elems' sown).

End Server.

(** ** [src/unnamed/part_000]: the router that relays, and the HTTP API *)
Module Relay.
Import JS Eff.
Local Open Scope eff_scope.

Definition conn : Type := nat.

Definition OPEN : nat := 1.

(** The prototype of the [cache] object: [Object.prototype] at first; an
    assignment to [__proto__] can make it [null] or a parsed object. *)
Inductive proto : Type :=
| ProtoObject
| ProtoNull
| ProtoOf (v : value).

(** [const cache = { stockItems: [], sales: [], transactions: [], audit: [] }].
    [Object.assign(cache, ...)] can overwrite each field with any value and
    add properties ([extra]); no property is ever deleted. *)
Record Cache : Type := {
  stockItems : value;
  sales : value;
  transactions : value;
  audit : value;
  extra : list (string * value);
  prototype : proto
}.

Record Session : Type := {
  userType : value;
  userName : value;
  authenticated : value
}.

Record World : Type := {
  connections : list conn;
  sessions : gmap conn Session;
  cache : Cache;
  readyState : conn -> nat
}.

Definition Send : Type := (conn * value)%type.

Definition empty_cache : Cache :=
  {| stockItems := arr []; sales := arr []; transactions := arr []; audit := arr [];
     extra := []; prototype := ProtoObject |}.

Definition init (ready : conn -> nat) : World :=
  {| connections := []; sessions := ∅; cache := empty_cache; readyState := ready |}.

Definition set_connections (f : list conn -> list conn) (w : World) : World :=
  {| connections := f (connections w); sessions := sessions w; cache := cache w;
     readyState := readyState w |}.

Definition set_sessions (f : gmap conn Session -> gmap conn Session) (w : World) : World :=
  {| connections := connections w; sessions := f (sessions w); cache := cache w;
     readyState := readyState w |}.

Definition set_cache (f : Cache -> Cache) (w : World) : World :=
  {| connections := connections w; sessions := sessions w; cache := f (cache w);
     readyState := readyState w |}.

Definition set_readyState (ws : conn) (state : nat) (w : World) : World :=
  {| connections := connections w; sessions := sessions w; cache := cache w;
     readyState := fun c => if Nat.eqb c ws then state else readyState w c |}.

Definition set_stockItems (v : value) (c : Cache) : Cache :=
  {| stockItems := v; sales := sales c; transactions := transactions c; audit := audit c;
     extra := extra c; prototype := prototype c |}.

Definition set_sales (v : value) (c : Cache) : Cache :=
  {| stockItems := stockItems c; sales := v; transactions := transactions c; audit := audit c;
     extra := extra c; prototype := prototype c |}.

Definition set_transactions (v : value) (c : Cache) : Cache :=
  {| stockItems := stockItems c; sales := sales c; transactions := v; audit := audit c;
     extra := extra c; prototype := prototype c |}.

Definition set_audit (v : value) (c : Cache) : Cache :=
  {| stockItems := stockItems c; sales := sales c; transactions := transactions c; audit := v;
     extra := extra c; prototype := prototype c |}.

Definition set_extra (l : list (string * value)) (c : Cache) : Cache :=
  {| stockItems := stockItems c; sales := sales c; transactions := transactions c;
     audit := audit c; extra := l; prototype := prototype c |}.

Definition set_prototype (p : proto) (c : Cache) : Cache :=
  {| stockItems := stockItems c; sales := sales c; transactions := transactions c;
     audit := audit c; extra := extra c; prototype := p |}.

(** The cache as the value [JSON.stringify] is handed. *)
Definition cache_value (c : Cache) : value :=
  obj ([("stockItems", stockItems c); ("sales", sales c);
        ("transactions", transactions c); ("audit", audit c)] ++ extra c).

(** Whether a lookup of [__proto__] that starts at the prototype reaches the
    accessor of [Object.prototype]: not from [null], and not through a parsed
    object that has an own property of that name. *)
Definition reaches_setter (p : proto) : bool :=
  match p with
  | ProtoObject => true
  | ProtoNull => false
  | ProtoOf (VObj own) | ProtoOf (VArr _ own) => negb (has_own "__proto__" own)
  | ProtoOf _ => true
  end.

(** [cache[k] = v], as [Object.assign] performs it.  Assigning [__proto__]
    runs the inherited setter when there is one: an object or [null] becomes
    the prototype, any other value is ignored. *)
Definition assign_one (c : Cache) (kv : string * value) : Cache :=
  let k := fst kv in
  let v := snd kv in
  if String.eqb k "stockItems" then set_stockItems v c
  else if String.eqb k "sales" then set_sales v c
  else if String.eqb k "transactions" then set_transactions v c
  else if String.eqb k "audit" then set_audit v c
  else if String.eqb k "__proto__"
          && negb (has_own "__proto__" (extra c))
          && reaches_setter (prototype c)
  then match v with
       | VObj _ | VArr _ _ => set_prototype (ProtoOf v) c
       | VNull => set_prototype ProtoNull c
       | _ => c
       end
  else set_extra (define_own k v (extra c)) c.

(** [Object.assign(cache, v)]. *)
Definition Object_assign (c : Cache) (v : value) : Cache :=
  fold_left assign_one (own_enumerable v) c.

Definition set_add (ws : conn) (l : list conn) : list conn :=
  if existsb (Nat.eqb ws) l then l else l ++ [ws].

Definition set_delete (ws : conn) (l : list conn) : list conn :=
  List.filter (fun c => negb (Nat.eqb c ws)) l.

Inductive frame : Type :=
| Malformed
| Parsed (message : value).

(** An HTTP request: the [upgrade] header, [url.pathname], the method and
    what [await request.json()] gives when the handler asks for it. *)
Record Request : Type := {
  upgrade : option string;
  pathname : string;
  method : string;
  json : completion value
}.

(** A response.  Every [ApiResponse] carries the CORS headers; its body is
    absent on a preflight. *)
Inductive Response : Type :=
| ApiResponse (status : nat) (body : option value)
| TextResponse (status : nat) (body : string)
| UpgradeResponse
| StaticResponse.

Abbreviation Handler := (M World Send).

Definition send (ws : conn) (message : value) : Handler unit :=
  state <- gets (fun w => readyState w ws) ;;
  if Nat.eqb state OPEN then emit (ws, message) else throw InvalidStateError.

(** The callback of [connections.forEach] in [broadcast]. *)
Definition deliver (message : value) (ws : conn) : Handler unit :=
  state <- gets (fun w => readyState w ws) ;;
  if Nat.eqb state OPEN then send ws message else ret tt.

Definition broadcast (message : value) : Handler unit :=
  conns <- gets connections ;;
  forEach conns (deliver message).

Definition is_type (ty : value) (name : string) : bool := strict_eq ty (VStr name).

Definition handleWebSocketMessage (ws : conn) (message : value) : Handler unit :=
  ty <- lift (getProp message "type") ;;
  if is_type ty "auth" then
    ut <- lift (getProp message "userType") ;;
    un <- lift (getProp message "userName") ;;
    modify (set_sessions (insert ws
      {| userType := ut; userName := un; authenticated := VBool true |})) ;;;
    send ws (obj [("type", VStr "auth_success"); ("message", VStr "Authenticated")])
  else if is_type ty "stock_update" then
    data <- lift (getProp message "data") ;;
    broadcast (obj [("type", VStr "stock_update"); ("data", data)])
  else if is_type ty "sale_update" then
    data <- lift (getProp message "data") ;;
    broadcast (obj [("type", VStr "sale_update"); ("data", data)])
  else if is_type ty "audit_update" then
    data <- lift (getProp message "data") ;;
    broadcast (obj [("type", VStr "audit_update"); ("data", data)])
  else if is_type ty "sync_request" then
    c <- gets cache ;;
    send ws (obj [("type", VStr "sync_response"); ("data", cache_value c)])
  else if is_type ty "sync_response" then
    data <- lift (getProp message "data") ;;
    modify (set_cache (fun c => Object_assign c data))
  else ret tt.

(** [ws.onmessage]: an exception is logged and nothing else. *)
Definition onmessage (ws : conn) (f : frame) : Handler unit :=
  try_catch
    (match f with
     | Malformed => throw SyntaxError
     | Parsed message => handleWebSocketMessage ws message
     end)
    (fun _ => ret tt).

Definition handleWebSocket (ws : conn) : Handler unit :=
  modify (set_connections (set_add ws)).

Definition onopen (ws : conn) : Handler unit :=
  send ws (obj [("type", VStr "connected"); ("message", VStr "Connected to server")]).

Definition onclose (ws : conn) : Handler unit :=
  modify (set_connections (set_delete ws)).

Definition onerror (ws : conn) : Handler unit :=
  modify (set_connections (set_delete ws)).

Definition settings : value :=
  obj [("lowStockThreshold", VNum 20); ("expiryWarningDays", VNum 60);
       ("defaultMarkup", VNum 50); ("defaultVAT", VNum 15);
       ("overstockAlert", VNum 150); ("profitMarginAlert", VNum 10)].

Definition success : Response := ApiResponse 200 (Some (obj [("success", VBool true)])).

(** The body of the [try] of [handleAPI]. *)
Definition api (req : Request) : Handler Response :=
  let path := pathname req in
  let GET := String.eqb (method req) "GET" in
  let POST := String.eqb (method req) "POST" in
  let not_found := ret (ApiResponse 404 (Some (obj [("error", VStr "Not found")]))) in
  if String.eqb path "/api/stock" then
    if GET then c <- gets cache ;; ret (ApiResponse 200 (Some (stockItems c)))
    else if POST then
      data <- lift (json req) ;;
      c <- gets cache ;;
      items <- lift (push (stockItems c) data) ;;
      modify (set_cache (set_stockItems items)) ;;;
      broadcast (obj [("type", VStr "stock_update"); ("data", data)]) ;;;
      ret success
    else not_found
  else if String.eqb path "/api/sales" then
    if GET then c <- gets cache ;; ret (ApiResponse 200 (Some (sales c)))
    else if POST then
      data <- lift (json req) ;;
      c <- gets cache ;;
      all <- lift (push (sales c) data) ;;
      modify (set_cache (set_sales all)) ;;;
      broadcast (obj [("type", VStr "sale_update"); ("data", data)]) ;;;
      ret success
    else not_found
  else if String.eqb path "/api/audit" then
    if GET then c <- gets cache ;; ret (ApiResponse 200 (Some (audit c)))
    else if POST then
      data <- lift (json req) ;;
      c <- gets cache ;;
      entries <- lift (push (audit c) data) ;;
      modify (set_cache (set_audit entries)) ;;;
      broadcast (obj [("type", VStr "audit_update"); ("data", data)]) ;;;
      ret success
    else not_found
  else if String.eqb path "/api/settings" then
    if GET then ret (ApiResponse 200 (Some settings)) else not_found
  else if String.eqb path "/api/login" then
    if POST then
      body <- lift (json req) ;;
      loginType <- lift (getProp body "loginType") ;;
      password <- lift (getProp body "password") ;;
      if (strict_eq loginType (VStr "user") && strict_eq password (VStr "123456"))
         || (strict_eq loginType (VStr "admin") && strict_eq password (VStr "esubalew2123"))
      then ret (ApiResponse 200 (Some (obj
             [("success", VBool true);
              ("userType", loginType);
              ("userName", if strict_eq loginType (VStr "admin")
                           then VStr "Esubalew Biyazin" else VStr "User")])))
      else ret (ApiResponse 401 (Some (obj
             [("success", VBool false); ("message", VStr "Invalid credentials")])))
    else not_found
  else not_found.

Definition handleAPI (req : Request) : Handler Response :=
  if String.eqb (method req) "OPTIONS" then ret (ApiResponse 200 None)
  else
    try_catch (api req)
      (fun _ => ret (ApiResponse 500 (Some (obj [("error", VStr "Internal server error")])))).

Definition handleRequest (socket : completion conn) (req : Request) : Handler Response :=
  if String.eqb (pathname req) "/ws" then
    if match upgrade req with Some h => String.eqb h "websocket" | None => false end then
      ws <- lift socket ;;
      handleWebSocket ws ;;;
      ret UpgradeResponse
    else ret (TextResponse 400 "Expected WebSocket upgrade")
  else if String.prefix "/api/" (pathname req) then handleAPI req
  else ret StaticResponse.

Inductive event : Type :=
| EvRequest (socket : completion conn) (req : Request)
| EvTransport (ws : conn) (state : nat)
| EvOpen (ws : conn)
| EvMessage (ws : conn) (f : frame)
| EvClose (ws : conn)
| EvError (ws : conn).

(** What a handler leaves behind: the state and the messages sent. *)
Definition quiet {A} (m : Handler A) : World -> World * list Send :=
  fun w => match m w with (_, w', out) => (w', out) end.

(** One event handled to completion, and a sequence of them. *)
Definition step (ev : event) : World -> World * list Send :=
  match ev with
  | EvRequest socket req => quiet (handleRequest socket req)
  | EvTransport ws state => fun w => (set_readyState ws state w, [])
  | EvOpen ws => quiet (onopen ws)
  | EvMessage ws f => quiet (onmessage ws f)
  | EvClose ws => quiet (onclose ws)
  | EvError ws => quiet (onerror ws)
  end.

Fixpoint run (evs : list event) (w : World) : World * list Send :=
  match evs with
  | [] => (w, [])
  | ev :: evs' =>
      match step ev w with
      | (w1, out1) =>
          match run evs' w1 with
          | (w2, out2) => (w2, out1 ++ out2)
          end
      end
  end.

Definition audience (w : World) : list conn :=
  List.filter (fun c => Nat.eqb (readyState w c) OPEN) (connections w).

Definition fanout (message : value) (w : World) : list Send :=
  map (fun c => (c, message)) (audience w).

End Relay.

(** ** Sample hosts, states and messages *)
Module Samples.
Import JS.

(** A host whose clock starts at 1700000000000 ms and advances by one at
    each reading.  No sample holds a quantity that is a string or an array,
    so the two conversions are never called. *)
Definition host : Runtime :=
  {| StringToNumber := fun _ => nan;
     ArrayJoin := fun _ => Normal "";
     Date_now := fun n => (1700000000000 + Server.float_of_nat n)%float |}.

(** Sockets 1 and 2 are open, every other one is closed. *)
Definition ready (c : nat) : nat :=
  if Nat.eqb c 1 || Nat.eqb c 2 then 1 else 3.

Definition stock_item (id : string) (quantity : float) : value :=
  obj [("id", VStr id); ("quantity", VNum quantity)].

Definition line_item (id : string) (quantity : float) : value :=
  obj [("id", VStr id); ("quantity", VNum quantity)].

(** *** [src/server.ts] *)

(** Three registered sockets, the third closed; two stock items. *)
Definition shop : Server.World :=
  {| Server.connections := [1; 2; 3];
     Server.sessions := ∅;
     Server.cache :=
       {| Server.stockItems := arr [stock_item "A1" 10; stock_item "B2" 5];
          Server.sales := []; Server.transactions := []; Server.audit := [] |};
     Server.readyState := ready;
     Server.ticks := 0 |}.

(** The same shop when two stock items carry the same identifier. *)
Definition shop_twins : Server.World :=
  {| Server.connections := [1; 2; 3];
     Server.sessions := ∅;
     Server.cache :=
       {| Server.stockItems := arr [stock_item "A1" 10; stock_item "A1" 10];
          Server.sales := []; Server.transactions := []; Server.audit := [] |};
     Server.readyState := ready;
     Server.ticks := 0 |}.

(** The shop after one audited action. *)
Definition shop_audited : Server.World :=
  {| Server.connections := [1; 2; 3];
     Server.sessions := ∅;
     Server.cache :=
       {| Server.stockItems := arr [stock_item "A1" 10; stock_item "B2" 5];
          Server.sales := []; Server.transactions := [];
          Server.audit := [obj [("action", VStr "sale_created");
                                ("data", obj [("total", VNum 12)]);
                                ("timestamp", VNum 1699999999999)]] |};
     Server.readyState := ready;
     Server.ticks := 0 |}.

Definition message (type : string) (fields : list (string * value)) : value :=
  obj (("type", VStr type) :: fields).

(** A sale of three units of [A1] and one unit of an unknown item. *)
Definition sale : value :=
  obj [("customer", VStr "walk-in");
       ("items", arr [line_item "A1" 3; line_item "ZZ" 1])].

(** A sale whose [items] is a single line item, not an array of them. *)
Definition sale_single : value :=
  obj [("customer", VStr "walk-in"); ("items", line_item "A1" 3)].

Definition auth_message : value :=
  message "auth" [("userType", VStr "admin"); ("userName", VStr "Esubalew")].

Definition clear_request : Server.Request :=
  {| Server.upgrade := None; Server.pathname := "/api/clear-cache";
     Server.method := "POST" |}.

(** *** [src/unnamed/part_000] *)

Definition desk : Relay.World :=
  {| Relay.connections := [1; 2];
     Relay.sessions := ∅;
     Relay.cache := Relay.empty_cache;
     Relay.readyState := ready |}.

(** The outcome of [Deno.upgradeWebSocket] on a request that is no
    handshake; the requests below never ask for it. *)
Definition no_socket : completion nat := Throw Rejected.

Definition post_sale (body : value) : Relay.Request :=
  {| Relay.upgrade := None; Relay.pathname := "/api/sales";
     Relay.method := "POST"; Relay.json := Normal body |}.

End Samples.

(** ** What the handlers leave untouched *)
Module Frame.
Import JS Eff.

Section Keeps.
Context {S O : Type}.
Variable R : S -> S -> Prop.

(** Whatever [m] returns or throws, the state it leaves is related by [R] to
    the state it started from. *)
Definition keeps {A} (m : M S O A) : Prop :=
  forall s r s' o, m s = (r, s', o) -> R s s'.

End Keeps.

(** [src/server.ts]: the registry and the transport are as before, the
    three collections that are pushed to have only grown at their end, and
    the clock has only advanced. *)
Definition server_grows (w w' : Server.World) : Prop :=
  Server.connections w' = Server.connections w /\
  Server.readyState w' = Server.readyState w /\
  Server.sales (Server.cache w) `prefix_of` Server.sales (Server.cache w') /\
  Server.transactions (Server.cache w) `prefix_of` Server.transactions (Server.cache w') /\
  Server.audit (Server.cache w) `prefix_of` Server.audit (Server.cache w') /\
  Server.ticks w <= Server.ticks w'.

(** [src/server.ts]: if the registry held no socket twice, it still holds
    none twice. *)
Definition server_distinct (w w' : Server.World) : Prop :=
  NoDup (Server.connections w) -> NoDup (Server.connections w').

(** [src/unnamed/part_000]: the registry and the transport are as before. *)
Definition relay_registry (w w' : Relay.World) : Prop :=
  Relay.connections w' = Relay.connections w /\
  Relay.readyState w' = Relay.readyState w.

(** [src/unnamed/part_000]: the cache is as before, unless [message] is a
    [sync_response]. *)
Definition relay_cache_unless_sync (message : value) (w w' : Relay.World) : Prop :=
  Relay.cache w' = Relay.cache w \/
  getProp message "type" = Normal (VStr "sync_response").

(** The number of messages of [out] handed to the socket [c]. *)
Definition copies (c : nat) (out : list (nat * value)) : nat :=
  List.length (List.filter (fun s => Nat.eqb (fst s) c) out).

(** The keys of an object are pairwise distinct, as in every object that
    [JSON.parse] builds. *)
Definition distinct_keys (own : list (string * value)) : Prop :=
  NoDup (map fst own).

End Frame.

(** ** Running the monad *)
Module EffFacts.
Import JS Eff.

Section Run.
Context {S O : Type}.

Lemma bind_run {A B} (m : M S O A) (k : A -> M S O B) (s : S) :
  bind m k s =
  match m s with
  | (Normal a, s1, o1) =>
      match k a s1 with
      | (r, s2, o2) => (r, s2, o1 ++ o2)
      end
  | (Throw e, s1, o1) => (Throw e, s1, o1)
  end.
Proof. reflexivity. Qed.

Lemma bind_normal {A B} (m : M S O A) (k : A -> M S O B) (s s1 : S) a o1 :
  m s = (Normal a, s1, o1) ->
  bind m k s = match k a s1 with (r, s2, o2) => (r, s2, o1 ++ o2) end.
Proof. intros H. rewrite bind_run, H. reflexivity. Qed.

Lemma bind_lift {A B} (c : completion A) (k : A -> M S O B) (s : S) a :
  c = Normal a -> bind (lift c) k s = k a s.
Proof.
  intros ->. rewrite bind_run. unfold lift.
  destruct (k a s) as [[r s2] o2]. reflexivity.
Qed.

Lemma bind_gets {A B} (f : S -> A) (k : A -> M S O B) (s : S) :
  bind (gets f) k s = k (f s) s.
Proof.
  rewrite bind_run. unfold gets.
  destruct (k (f s) s) as [[r s2] o2]. reflexivity.
Qed.

Lemma bind_modify {B} (f : S -> S) (k : unit -> M S O B) (s : S) :
  bind (modify f) k s = k tt (f s).
Proof.
  rewrite bind_run. unfold modify.
  destruct (k tt (f s)) as [[r s2] o2]. reflexivity.
Qed.

Lemma bind_ret {A B} (a : A) (k : A -> M S O B) (s : S) :
  bind (ret a) k s = k a s.
Proof.
  rewrite bind_run. unfold ret.
  destruct (k a s) as [[r s2] o2]. reflexivity.
Qed.

Lemma try_catch_normal {A} (body : M S O A) handler s a s1 o1 :
  body s = (Normal a, s1, o1) -> try_catch body handler s = (Normal a, s1, o1).
Proof. intros H. unfold try_catch. rewrite H. reflexivity. Qed.

Lemma try_catch_throw {A} (body : M S O A) handler s e s1 o1 :
  body s = (Throw e, s1, o1) ->
  try_catch body handler s =
  match handler e s1 with (r, s2, o2) => (r, s2, o1 ++ o2) end.
Proof. intros H. unfold try_catch. rewrite H. reflexivity. Qed.

Lemma forEach_cons {A} (a : A) (l : list A) (body : A -> M S O unit) :
  forEach (a :: l) body = bind (body a) (fun _ => forEach l body).
Proof. reflexivity. Qed.

End Run.
End EffFacts.

(** ** Facts about [src/server.ts] *)
Module ServerFacts.
Import JS Eff EffFacts Server.
Local Open Scope eff_scope.

Lemma send_open (ws : conn) (message : value) (w : World) :
  readyState w ws = OPEN -> send ws message w = (Normal tt, w, [(ws, message)]).
Proof. intros H. unfold send. rewrite bind_gets, H. reflexivity. Qed.

Lemma deliver_run (message : value) (c : conn) (w : World) :
  deliver message c w =
  (Normal tt, w, if Nat.eqb (readyState w c) OPEN then [(c, message)] else []).
Proof.
  unfold deliver. rewrite bind_gets.
  destruct (Nat.eqb (readyState w c) OPEN) eqn:E; [|reflexivity].
  apply send_open, Nat.eqb_eq, E.
Qed.

Lemma forEach_deliver (message : value) (w : World) (l : list conn) :
  forEach l (deliver message) w
  = (Normal tt, w,
     map (fun c => (c, message))
       (List.filter (fun c => Nat.eqb (readyState w c) OPEN) l)).
Proof.
  induction l as [|c l IH]; [reflexivity|].
  rewrite forEach_cons, (bind_normal _ _ _ _ _ _ (deliver_run message c w)), IH.
  cbn [List.filter]. destruct (Nat.eqb (readyState w c) OPEN); reflexivity.
Qed.

(** A broadcast changes no state, never throws, and hands one copy of the
    message to each open registered connection. *)
Lemma broadcast_run (message : value) (w : World) :
  broadcast message w = (Normal tt, w, fanout message w).
Proof.
  unfold broadcast. rewrite bind_gets, forEach_deliver. reflexivity.
Qed.

Lemma is_type_str (s name : string) : is_type (VStr s) name = String.eqb s name.
Proof. reflexivity. Qed.

Ltac pick_case H :=
  rewrite (bind_lift _ _ _ _ H); rewrite ?is_type_str; cbn [String.eqb Ascii.eqb Bool.eqb].

(** [stock_update]: the stock collection becomes the payload, or the empty
    array when the payload is falsy, and is broadcast. *)
Lemma dispatch_stock_update rt ws message data w :
  getProp message "type" = Normal (VStr "stock_update") ->
  getProp message "data" = Normal data ->
  dispatch rt ws message w =
  (Normal tt,
   set_cache (set_stockItems (js_or data (arr []))) w,
   fanout (obj [("type", VStr "stock_updated"); ("data", js_or data (arr []))]) w).
Proof.
  intros Hty Hdata. unfold dispatch. pick_case Hty.
  rewrite (bind_lift _ _ _ _ Hdata), bind_modify, bind_gets, broadcast_run.
  reflexivity.
Qed.

Lemma bind_now {B} rt (k : value -> M World Send B) (w : World) :
  bind (now rt) k w = k (VNum (Date_now rt (ticks w))) (tick w).
Proof.
  rewrite bind_run. unfold now.
  destruct (k _ (tick w)) as [[r s2] o2]. reflexivity.
Qed.

Lemma bind_broadcast {B} message (k : unit -> M World Send B) (w : World) :
  bind (broadcast message) k w =
  match k tt w with (r, w2, o2) => (r, w2, fanout message w ++ o2) end.
Proof. rewrite (bind_normal _ _ _ _ _ _ (broadcast_run message w)). reflexivity. Qed.

Lemma logAudit_run rt action data w :
  logAudit rt action data w =
  (Normal tt,
   set_cache (push_audit (audit_entry rt action data (ticks w))) (tick w),
   fanout (obj [("type", VStr "audit_updated");
                ("data", arr (audit (cache w) ++ [audit_entry rt action data (ticks w)]))]) w).
Proof.
  unfold logAudit. rewrite bind_now, bind_modify, bind_gets, broadcast_run.
  reflexivity.
Qed.

(** [sale_update] and [transaction_update] with a falsy payload do nothing. *)
Lemma dispatch_sale_falsy rt ws message data w :
  getProp message "type" = Normal (VStr "sale_update") ->
  getProp message "data" = Normal data ->
  truthy data = false ->
  dispatch rt ws message w = (Normal tt, w, []).
Proof.
  intros Hty Hdata Hf. unfold dispatch. pick_case Hty.
  rewrite (bind_lift _ _ _ _ Hdata), Hf. reflexivity.
Qed.

Lemma dispatch_transaction_falsy rt ws message data w :
  getProp message "type" = Normal (VStr "transaction_update") ->
  getProp message "data" = Normal data ->
  truthy data = false ->
  dispatch rt ws message w = (Normal tt, w, []).
Proof.
  intros Hty Hdata Hf. unfold dispatch. pick_case Hty.
  rewrite (bind_lift _ _ _ _ Hdata), Hf. reflexivity.
Qed.

Lemma dispatch_transaction_update rt ws message data w :
  getProp message "type" = Normal (VStr "transaction_update") ->
  getProp message "data" = Normal data ->
  truthy data = true ->
  dispatch rt ws message w =
  (Normal tt,
   set_cache (push_audit (audit_entry rt "transaction_created" data (S (ticks w))))
     (tick (set_cache (push_transaction (stamped rt data (ticks w))) (tick w))),
   fanout (obj [("type", VStr "transactions_updated");
                ("data", arr (transactions (cache w) ++ [stamped rt data (ticks w)]))]) w
   ++ fanout (obj [("type", VStr "audit_updated");
                   ("data", arr (audit (cache w)
                                 ++ [audit_entry rt "transaction_created" data (S (ticks w))]))]) w).
Proof.
  intros Hty Hdata Ht. unfold dispatch. pick_case Hty.
  rewrite (bind_lift _ _ _ _ Hdata), Ht, bind_now, bind_modify, bind_gets.
  rewrite bind_broadcast, logAudit_run. reflexivity.
Qed.

Lemma dispatch_sync_request rt ws message w :
  getProp message "type" = Normal (VStr "sync_request") ->
  readyState w ws = OPEN ->
  dispatch rt ws message w = (Normal tt, w, [(ws, snapshot (cache w))]).
Proof.
  intros Hty Hopen. unfold dispatch. pick_case Hty.
  rewrite bind_gets. apply send_open, Hopen.
Qed.

Lemma dispatch_auth_accepted rt ws message ut un w :
  getProp message "type" = Normal (VStr "auth") ->
  getProp message "userType" = Normal ut ->
  getProp message "userName" = Normal un ->
  truthy ut = true -> truthy un = true ->
  readyState w ws = OPEN ->
  dispatch rt ws message w =
  (Normal tt,
   set_sessions (insert ws {| userType := ut; userName := un;
                              timestamp := VNum (Date_now rt (ticks w)) |}) (tick w),
   [(ws, initial_data (cache w))]).
Proof.
  intros Hty Hut Hun Tut Tun Hopen. unfold dispatch. pick_case Hty.
  rewrite (bind_lift _ _ _ _ Hut), (bind_lift _ _ _ _ Hun).
  unfold js_and. rewrite Tut, Tun, bind_now, bind_modify, bind_gets.
  apply send_open, Hopen.
Qed.

Lemma dispatch_auth_refused rt ws message ut un w :
  getProp message "type" = Normal (VStr "auth") ->
  getProp message "userType" = Normal ut ->
  getProp message "userName" = Normal un ->
  truthy ut && truthy un = false ->
  dispatch rt ws message w = (Normal tt, w, []).
Proof.
  intros Hty Hut Hun Hf. unfold dispatch. pick_case Hty.
  rewrite (bind_lift _ _ _ _ Hut), (bind_lift _ _ _ _ Hun).
  unfold js_and. destruct (truthy ut) eqn:Eut; cbn in Hf.
  - rewrite Hf. reflexivity.
  - rewrite Eut. reflexivity.
Qed.

Lemma onmessage_malformed rt ws w :
  readyState w ws = OPEN ->
  onmessage rt ws Malformed w = (Normal tt, w, [(ws, error_notice)]).
Proof.
  intros Hopen. unfold onmessage.
  rewrite (try_catch_throw _ _ w SyntaxError w [] eq_refl), (send_open _ _ _ Hopen).
  reflexivity.
Qed.

Lemma onmessage_parsed rt ws message w w1 o1 :
  dispatch rt ws message w = (Normal tt, w1, o1) ->
  onmessage rt ws (Parsed message) w = (Normal tt, w1, o1).
Proof. intros H. unfold onmessage. apply try_catch_normal, H. Qed.

(** *** The stock adjustment *)

Lemma record_inv v : record v = true -> exists own, v = VObj own.
Proof. destruct v; try discriminate. eauto. Qed.

Lemma lookup_define_own k x l : lookup_own k (define_own k x l) = Some x.
Proof.
  induction l as [|[k' v'] l IH]; cbn.
  - rewrite String.eqb_refl. reflexivity.
  - destruct (String.eqb k k') eqn:E; cbn; rewrite ?E, ?String.eqb_refl; auto.
Qed.

Lemma ToNumber_primitive rt v :
  primitive v = true -> exists x, ToNumber rt v = Normal x.
Proof. destruct v; try discriminate; cbn; eauto. Qed.

Lemma same_id_record item s :
  record s = true -> record item = true ->
  exists b, same_id item s = Normal b /\ (b = true <-> names item s).
Proof.
  intros [so ->]%record_inv [io ->]%record_inv. unfold same_id, names. cbn.
  eexists. split; [reflexivity|]. split.
  - intros H. eauto.
  - intros (sid & iid & [= <-] & [= <-] & H). exact H.
Qed.

Lemma find_from_records item (l : list value) : forall i,
  Forall (fun s => record s = true) l -> record item = true ->
  (find_from (same_id item) i l = Normal None /\
   forall s, In s l -> ~ names item s) \/
  (exists j s,
     find_from (same_id item) i l = Normal (Some (i + j, s)) /\
     l !! j = Some s /\ names item s /\
     forall j' s0, j' < j -> l !! j' = Some s0 -> ~ names item s0).
Proof.
  induction l as [|s l IH]; intros i Hl Hitem.
  - left. split; [reflexivity|]. intros s [].
  - inversion Hl as [|? ? Hs Hl']; subst.
    destruct (same_id_record item s Hs Hitem) as (b & Hb & Hnames).
    cbn [find_from]. rewrite Hb. cbn [cbind]. destruct b.
    + right. exists 0, s. rewrite Nat.add_0_r.
      split; [reflexivity|]. split; [reflexivity|].
      split; [apply Hnames; reflexivity|]. intros j' s0 Hlt. lia.
    + destruct (IH (S i) Hl' Hitem) as [[Hnone Hall] | (j & s1 & Hfind & Hj & Hn & Hbefore)].
      * left. split; [exact Hnone|].
        intros s0 [<- | Hin]; [|auto].
        intros Hc. apply Hnames in Hc. discriminate.
      * right. exists (S j), s1. rewrite Nat.add_succ_r.
        split; [exact Hfind|]. split; [exact Hj|]. split; [exact Hn|].
        intros [|j'] s0 Hlt Hlook.
        -- cbn in Hlook. injection Hlook as <-.
           intros Hc. apply Hnames in Hc. discriminate.
        -- apply (Hbefore j' s0); [lia | exact Hlook].
Qed.

Lemma set_stock_same w elems own :
  stockItems (cache w) = VArr elems own ->
  set_cache (set_stockItems (VArr elems own)) w = w.
Proof.
  destruct w as [cs ss [st sa tr au] rs tk]. cbn. intros ->. reflexivity.
Qed.

Lemma adjustStock_run rt item elems own w :
  stockItems (cache w) = VArr elems own ->
  Forall (fun s => record s = true) elems ->
  record item = true ->
  exists elems',
    adjustStock rt item w =
      (Normal tt, set_cache (set_stockItems (VArr elems' own)) w, []) /\
    adjusted rt item elems elems' /\
    Forall (fun s => record s = true) elems'.
Proof.
  intros Hstock Hrec Hitem. unfold adjustStock.
  rewrite bind_gets, Hstock. unfold find.
  destruct (find_from_records item elems 0 Hrec Hitem)
    as [[Hnone Hall] | (j & s & Hfind & Hj & Hn & Hbefore)].
  - exists elems. rewrite (bind_lift _ _ _ _ Hnone), (set_stock_same _ _ _ Hstock).
    split; [reflexivity|]. split; [constructor; exact Hall | exact Hrec].
  - rewrite (bind_lift _ _ _ _ Hfind). cbn [Nat.add].
    assert (Hs : record s = true).
    { rewrite Forall_forall in Hrec. apply Hrec. eapply list_elem_of_lookup_2, Hj. }
    destruct (record_inv s Hs) as [so ->].
    destruct (record_inv item Hitem) as [io ->].
    cbn [truthy].
    set (q := match lookup_own "quantity" so with Some x => x | None => VUndef end).
    set (d := match lookup_own "quantity" io with Some x => x | None => VUndef end).
    assert (Hq : primitive q = true).
    { subst q. cbn in Hs. destruct (lookup_own "quantity" so); [exact Hs | reflexivity]. }
    assert (Hd : primitive d = true).
    { subst d. cbn in Hitem. destruct (lookup_own "quantity" io); [exact Hitem | reflexivity]. }
    destruct (ToNumber_primitive rt q Hq) as [x Hx].
    destruct (ToNumber_primitive rt d Hd) as [y Hy].
    assert (Hsub : js_sub rt q d = Normal (VNum (x - y)%float)).
    { unfold js_sub. rewrite Hx, Hy. reflexivity. }
    exists (<[j := VObj (define_own "quantity" (VNum (x - y)%float) so)]> elems).
    rewrite (bind_lift (getProp (VObj so) "quantity") _ _ q eq_refl).
    rewrite (bind_lift (getProp (VObj io) "quantity") _ _ d eq_refl).
    rewrite (bind_lift _ _ _ _ Hsub).
    rewrite (bind_lift (setProp (VObj so) "quantity" _) _ _ _ eq_refl).
    split; [reflexivity|]. split.
    + eapply adjusted_hit; eauto; reflexivity.
    + apply Forall_insert; [exact Hrec|].
      cbn. rewrite lookup_define_own. reflexivity.
Qed.

Lemma forEach_adjustStock rt (line : list value) : forall elems own w,
  stockItems (cache w) = VArr elems own ->
  Forall (fun s => record s = true) elems ->
  Forall (fun item => record item = true) line ->
  exists elems',
    forEach line (adjustStock rt) w =
      (Normal tt, set_cache (set_stockItems (VArr elems' own)) w, []) /\
    adjusted_all rt line elems elems' /\
    Forall (fun s => record s = true) elems'.
Proof.
  induction line as [|item line IH]; intros elems own w Hstock Hrec Hline.
  - exists elems. cbn [forEach]. rewrite (set_stock_same _ _ _ Hstock).
    split; [reflexivity|]. split; [constructor | exact Hrec].
  - inversion Hline as [|? ? Hitem Hline']; subst.
    destruct (adjustStock_run rt item elems own w Hstock Hrec Hitem)
      as (mid & Hrun & Hadj & Hmid).
    destruct (IH mid own (set_cache (set_stockItems (VArr mid own)) w)
                eq_refl Hmid Hline') as (elems' & Hrun' & Hall & Hrec').
    exists elems'. rewrite forEach_cons, (bind_normal _ _ _ _ _ _ Hrun), Hrun'.
    split; [reflexivity|]. split; [econstructor; eauto | exact Hrec'].
Qed.

Lemma adjusted_all_miss rt line elems elems' :
  adjusted_all rt line elems elems' ->
  (forall item s, In item line -> In s elems -> ~ names item s) ->
  elems' = elems.
Proof.
  induction 1 as [|item items stock mid stock' Hadj Hall IH]; intros Hmiss;
    [reflexivity|].
  assert (mid = stock) as ->.
  { destruct Hadj as [|i s q d r s' Hi Hn]; [reflexivity|].
    exfalso. apply (Hmiss item s); [left; reflexivity | | exact Hn].
    apply list_elem_of_In. eapply list_elem_of_lookup_2, Hi. }
  apply IH. intros item' s Hin. apply Hmiss. right. exact Hin.
Qed.

(** *** The registry *)

Lemma set_delete_In ws c l : In c (set_delete ws l) <-> In c l /\ c <> ws.
Proof.
  unfold set_delete. rewrite filter_In, negb_true_iff, Nat.eqb_neq. reflexivity.
Qed.

(** *** The HTTP gateway *)

Lemma clear_cache_run socket req w :
  upgrade req <> Some "websocket" ->
  pathname req = "/api/clear-cache" ->
  method req = "POST" ->
  handleRequest socket req w =
  (Normal (JsonResponse 200 (obj [("message", VStr "Cache cleared successfully")])),
   set_cache (fun _ => empty_cache) w,
   fanout (obj [("type", VStr "cache_cleared")]) w).
Proof.
  intros Hup Hpath Hmethod. unfold handleRequest.
  assert (match upgrade req with
          | Some h => String.eqb h "websocket"
          | None => false
          end = false) as ->.
  { destruct (upgrade req) as [h|]; [|reflexivity].
    destruct (String.eqb_spec h "websocket"); [subst; contradiction | reflexivity]. }
  rewrite Hpath, Hmethod.
  change (String.prefix "/api/" "/api/clear-cache") with true.
  change (replace_first "/api/" "" "/api/clear-cache") with "clear-cache".
  cbn [String.eqb Ascii.eqb Bool.eqb].
  rewrite bind_modify, bind_broadcast. unfold ret. rewrite app_nil_r. reflexivity.
Qed.

Lemma run_two rt e1 e2 w :
  run rt [e1; e2] w =
  (fst (step rt e2 (fst (step rt e1 w))),
   snd (step rt e1 w) ++ snd (step rt e2 (fst (step rt e1 w)))).
Proof.
  cbn [run]. destruct (step rt e1 w) as [w1 o1].
  cbn [fst snd]. destruct (step rt e2 w1) as [w2 o2].
  cbn [fst snd]. f_equal. f_equal. apply app_nil_r.
Qed.

End ServerFacts.

(** ** Facts about [src/unnamed/part_000] *)
Module RelayFacts.
Import JS Eff EffFacts Relay.
Local Open Scope eff_scope.

Lemma relay_send_open (ws : conn) (message : value) (w : World) :
  readyState w ws = OPEN -> send ws message w = (Normal tt, w, [(ws, message)]).
Proof. intros H. unfold send. rewrite bind_gets, H. reflexivity. Qed.

Lemma relay_deliver_run (message : value) (c : conn) (w : World) :
  deliver message c w =
  (Normal tt, w, if Nat.eqb (readyState w c) OPEN then [(c, message)] else []).
Proof.
  unfold deliver. rewrite bind_gets.
  destruct (Nat.eqb (readyState w c) OPEN) eqn:E; [|reflexivity].
  apply relay_send_open, Nat.eqb_eq, E.
Qed.

Lemma relay_forEach_deliver (message : value) (w : World) (l : list conn) :
  forEach l (deliver message) w
  = (Normal tt, w,
     map (fun c => (c, message))
       (List.filter (fun c => Nat.eqb (readyState w c) OPEN) l)).
Proof.
  induction l as [|c l IH]; [reflexivity|].
  rewrite forEach_cons, (bind_normal _ _ _ _ _ _ (relay_deliver_run message c w)), IH.
  cbn [List.filter]. destruct (Nat.eqb (readyState w c) OPEN); reflexivity.
Qed.

Lemma relay_broadcast_run (message : value) (w : World) :
  broadcast message w = (Normal tt, w, fanout message w).
Proof.
  unfold broadcast. rewrite bind_gets, relay_forEach_deliver. reflexivity.
Qed.

Lemma relay_bind_broadcast {B} message (k : unit -> M World Send B) (w : World) :
  bind (broadcast message) k w =
  match k tt w with (r, w2, o2) => (r, w2, fanout message w ++ o2) end.
Proof. rewrite (bind_normal _ _ _ _ _ _ (relay_broadcast_run message w)). reflexivity. Qed.

Lemma relay_is_type_str (s name : string) : is_type (VStr s) name = String.eqb s name.
Proof. reflexivity. Qed.

Ltac pick_case H :=
  rewrite (bind_lift _ _ _ _ H); rewrite ?relay_is_type_str;
  cbn [String.eqb Ascii.eqb Bool.eqb].

(** The three update messages are relayed as they came; the cache is not
    touched. *)
Lemma relay_stock_update ws message data w :
  getProp message "type" = Normal (VStr "stock_update") ->
  getProp message "data" = Normal data ->
  handleWebSocketMessage ws message w =
  (Normal tt, w, fanout (obj [("type", VStr "stock_update"); ("data", data)]) w).
Proof.
  intros Hty Hdata. unfold handleWebSocketMessage. pick_case Hty.
  rewrite (bind_lift _ _ _ _ Hdata). apply relay_broadcast_run.
Qed.

Lemma relay_sale_update ws message data w :
  getProp message "type" = Normal (VStr "sale_update") ->
  getProp message "data" = Normal data ->
  handleWebSocketMessage ws message w =
  (Normal tt, w, fanout (obj [("type", VStr "sale_update"); ("data", data)]) w).
Proof.
  intros Hty Hdata. unfold handleWebSocketMessage. pick_case Hty.
  rewrite (bind_lift _ _ _ _ Hdata). apply relay_broadcast_run.
Qed.

Lemma relay_sync_request ws message w :
  getProp message "type" = Normal (VStr "sync_request") ->
  readyState w ws = OPEN ->
  handleWebSocketMessage ws message w =
  (Normal tt, w,
   [(ws, obj [("type", VStr "sync_response"); ("data", cache_value (cache w))])]).
Proof.
  intros Hty Hopen. unfold handleWebSocketMessage. pick_case Hty.
  rewrite bind_gets. apply relay_send_open, Hopen.
Qed.

Lemma relay_auth ws message ut un w :
  getProp message "type" = Normal (VStr "auth") ->
  getProp message "userType" = Normal ut ->
  getProp message "userName" = Normal un ->
  readyState w ws = OPEN ->
  handleWebSocketMessage ws message w =
  (Normal tt,
   set_sessions (insert ws {| userType := ut; userName := un;
                              authenticated := VBool true |}) w,
   [(ws, obj [("type", VStr "auth_success"); ("message", VStr "Authenticated")])]).
Proof.
  intros Hty Hut Hun Hopen. unfold handleWebSocketMessage. pick_case Hty.
  rewrite (bind_lift _ _ _ _ Hut), (bind_lift _ _ _ _ Hun), bind_modify.
  apply relay_send_open, Hopen.
Qed.

Lemma relay_onmessage_parsed ws message w w1 o1 :
  handleWebSocketMessage ws message w = (Normal tt, w1, o1) ->
  onmessage ws (Parsed message) w = (Normal tt, w1, o1).
Proof. intros H. unfold onmessage. apply try_catch_normal, H. Qed.

Lemma relay_set_delete_In ws c l : In c (set_delete ws l) <-> In c l /\ c <> ws.
Proof.
  unfold set_delete. rewrite filter_In, negb_true_iff, Nat.eqb_neq. reflexivity.
Qed.

(** [POST /api/sales] when the cached sales collection is an array. *)
Lemma post_sales_run socket req body elems own w :
  pathname req = "/api/sales" ->
  method req = "POST" ->
  json req = Normal body ->
  sales (cache w) = VArr elems own ->
  handleRequest socket req w =
  (Normal success,
   set_cache (set_sales (VArr (elems ++ [body]) own)) w,
   fanout (obj [("type", VStr "sale_update"); ("data", body)]) w).
Proof.
  intros Hpath Hmethod Hjson Hsales. unfold handleRequest, handleAPI, api.
  rewrite Hpath, Hmethod.
  change (String.prefix "/api/" "/api/sales") with true.
  cbn [String.eqb Ascii.eqb Bool.eqb].
  erewrite try_catch_normal; [reflexivity|].
  rewrite (bind_lift _ _ _ _ Hjson), bind_gets, Hsales.
  rewrite (bind_lift (push (VArr elems own) body) _ _ _ eq_refl).
  rewrite bind_modify, relay_bind_broadcast. unfold ret. rewrite app_nil_r.
  reflexivity.
Qed.

Lemma relay_run_two e1 e2 w :
  run [e1; e2] w =
  (fst (step e2 (fst (step e1 w))),
   snd (step e1 w) ++ snd (step e2 (fst (step e1 w)))).
Proof.
  cbn [run]. destruct (step e1 w) as [w1 o1].
  cbn [fst snd]. destruct (step e2 w1) as [w2 o2].
  cbn [fst snd]. f_equal. f_equal. apply app_nil_r.
Qed.

End RelayFacts.

(** ** The claims *)

Import JS Eff EffFacts.

(** C9.  A [stock_update] message whose [data] is absent or [null] makes
    [src/server.ts] replace the cached stock collection with the empty
    array and broadcast that empty collection to every open registered
    connection; nothing else of the state changes. *)
Theorem stock_update_without_data_empties_stock
    (rt : Runtime) (ws : Server.conn) (message : value) (w : Server.World) :
  getProp message "type" = Normal (VStr "stock_update") ->
  getProp message "data" = Normal VUndef \/ getProp message "data" = Normal VNull ->
  Server.onmessage rt ws (Server.Parsed message) w =
  (Normal tt,
   Server.set_cache (Server.set_stockItems (arr [])) w,
   Server.fanout (obj [("type", VStr "stock_updated"); ("data", arr [])]) w).
Proof.
  intros Hty Hdata. apply ServerFacts.onmessage_parsed.
  destruct Hdata as [Hdata | Hdata];
    rewrite (ServerFacts.dispatch_stock_update rt ws message _ w Hty Hdata);
    reflexivity.
Qed.

Lemma stock_update_without_data_witness :
  Server.onmessage Samples.host 1 (Server.Parsed (Samples.message "stock_update" []))
    Samples.shop =
  (Normal tt,
   Server.set_cache (Server.set_stockItems (arr [])) Samples.shop,
   [(1, obj [("type", VStr "stock_updated"); ("data", arr [])]);
    (2, obj [("type", VStr "stock_updated"); ("data", arr [])])]).
Proof.
  apply (stock_update_without_data_empties_stock Samples.host 1
           (Samples.message "stock_update" []) Samples.shop).
  - reflexivity.
  - left. reflexivity.
Defined.

(** C10.  A [sale_update] or [transaction_update] message without [data]
    makes [src/server.ts] do nothing: the whole state, the four cache
    collections included, is unchanged and nothing is sent. *)
Theorem update_without_data_is_noop
    (rt : Runtime) (ws : Server.conn) (message : value) (w : Server.World) :
  getProp message "type" = Normal (VStr "sale_update") \/
  getProp message "type" = Normal (VStr "transaction_update") ->
  getProp message "data" = Normal VUndef ->
  Server.onmessage rt ws (Server.Parsed message) w = (Normal tt, w, []).
Proof.
  intros [Hty | Hty] Hdata; apply ServerFacts.onmessage_parsed.
  - eapply ServerFacts.dispatch_sale_falsy; eauto.
  - eapply ServerFacts.dispatch_transaction_falsy; eauto.
Qed.

Lemma update_without_data_witness :
  Server.onmessage Samples.host 1 (Server.Parsed (Samples.message "sale_update" []))
    Samples.shop = (Normal tt, Samples.shop, []).
Proof.
  apply (update_without_data_is_noop Samples.host 1
           (Samples.message "sale_update" []) Samples.shop).
  - left. reflexivity.
  - reflexivity.
Defined.

(** C7.  A [POST /api/clear-cache] request (one that is not a WebSocket
    handshake) makes [src/server.ts] empty the four cache collections,
    hand a [cache_cleared] notice to every open registered connection and
    answer with the confirmation; a [sync_request] handled right after it,
    from any open connection, is answered with four empty arrays. *)
Theorem clear_cache_empties_and_notifies
    (rt : Runtime) (socket : completion Server.conn) (req : Server.Request)
    (ws : Server.conn) (message : value) (w : Server.World) :
  Server.upgrade req <> Some "websocket" ->
  Server.pathname req = "/api/clear-cache" ->
  Server.method req = "POST" ->
  getProp message "type" = Normal (VStr "sync_request") ->
  Server.readyState w ws = Server.OPEN ->
  let w' := Server.set_cache (fun _ => Server.empty_cache) w in
  Server.handleRequest socket req w =
    (Normal (Server.JsonResponse 200
               (obj [("message", VStr "Cache cleared successfully")])),
     w',
     Server.fanout (obj [("type", VStr "cache_cleared")]) w)
  /\ Server.stockItems (Server.cache w') = arr []
  /\ Server.sales (Server.cache w') = []
  /\ Server.transactions (Server.cache w') = []
  /\ Server.audit (Server.cache w') = []
  /\ (forall c, In (c, obj [("type", VStr "cache_cleared")])
                   (Server.fanout (obj [("type", VStr "cache_cleared")]) w)
                <-> In c (Server.connections w) /\ Server.readyState w c = Server.OPEN)
  /\ Server.onmessage rt ws (Server.Parsed message) w' =
       (Normal tt, w',
        [(ws, obj [("type", VStr "sync_response");
                   ("stockItems", arr []);
                   ("sales", arr []);
                   ("transactions", arr []);
                   ("audit", arr [])])]).
Proof.
  intros Hup Hpath Hmethod Hty Hopen w'.
  split; [apply ServerFacts.clear_cache_run; assumption|].
  repeat (split; [reflexivity|]).
  split.
  - intros c. unfold Server.fanout, Server.audience.
    rewrite in_map_iff. split.
    + intros (c' & [= ->] & Hin). rewrite filter_In, Nat.eqb_eq in Hin. exact Hin.
    + intros H. exists c. split; [reflexivity|].
      rewrite filter_In, Nat.eqb_eq. exact H.
  - apply ServerFacts.onmessage_parsed.
    rewrite (ServerFacts.dispatch_sync_request rt ws message w' Hty Hopen).
    reflexivity.
Qed.

Lemma clear_cache_witness :
  Server.handleRequest Samples.no_socket Samples.clear_request Samples.shop_audited =
    (Normal (Server.JsonResponse 200
               (obj [("message", VStr "Cache cleared successfully")])),
     Server.set_cache (fun _ => Server.empty_cache) Samples.shop_audited,
     [(1, obj [("type", VStr "cache_cleared")]);
      (2, obj [("type", VStr "cache_cleared")])]).
Proof.
  apply (clear_cache_empties_and_notifies Samples.host Samples.no_socket
           Samples.clear_request 2 (Samples.message "sync_request" [])
           Samples.shop_audited);
    [discriminate | reflexivity | reflexivity | reflexivity | reflexivity].
Defined.

(** C5.  After any sequence of events, a [sync_request] from an open
    connection is answered to that connection only, nothing is broadcast
    and no state changes; the answer carries the four collections as the
    cache holds them at that moment: spread at the top level in
    [src/server.ts], under [data] in [src/unnamed/part_000]. *)
Theorem sync_request_replies_with_snapshot
    (rt : Runtime) (ws : nat) (message : value)
    (sevs : list Server.event) (sw0 : Server.World)
    (revs : list Relay.event) (rw0 : Relay.World) :
  getProp message "type" = Normal (VStr "sync_request") ->
  Server.readyState (fst (Server.run rt sevs sw0)) ws = Server.OPEN ->
  Relay.readyState (fst (Relay.run revs rw0)) ws = Relay.OPEN ->
  (let w := fst (Server.run rt sevs sw0) in
   Server.onmessage rt ws (Server.Parsed message) w =
     (Normal tt, w,
      [(ws, obj [("type", VStr "sync_response");
                 ("stockItems", Server.stockItems (Server.cache w));
                 ("sales", arr (Server.sales (Server.cache w)));
                 ("transactions", arr (Server.transactions (Server.cache w)));
                 ("audit", arr (Server.audit (Server.cache w)))])]))
  /\
  (let w := fst (Relay.run revs rw0) in
   Relay.onmessage ws (Relay.Parsed message) w =
     (Normal tt, w,
      [(ws, obj [("type", VStr "sync_response");
                 ("data", obj ([("stockItems", Relay.stockItems (Relay.cache w));
                                ("sales", Relay.sales (Relay.cache w));
                                ("transactions", Relay.transactions (Relay.cache w));
                                ("audit", Relay.audit (Relay.cache w))]
                               ++ Relay.extra (Relay.cache w)))])])).
Proof.
  intros Hty Hs Hr. split; intros w.
  - apply ServerFacts.onmessage_parsed.
    rewrite (ServerFacts.dispatch_sync_request rt ws message w Hty Hs). reflexivity.
  - apply RelayFacts.relay_onmessage_parsed.
    rewrite (RelayFacts.relay_sync_request ws message w Hty Hr). reflexivity.
Qed.

Lemma sync_request_witness :
  snd (Server.onmessage Samples.host 2
         (Server.Parsed (Samples.message "sync_request" []))
         (fst (Server.run Samples.host
                 [Server.EvMessage 1 (Server.Parsed
                    (Samples.message "sale_update" [("data", Samples.sale)]))]
                 Samples.shop))) =
  [(2, obj [("type", VStr "sync_response");
            ("stockItems", arr [Samples.stock_item "A1" 7; Samples.stock_item "B2" 5]);
            ("sales", arr [Server.stamped Samples.host Samples.sale 0]);
            ("transactions", arr []);
            ("audit", arr [Server.audit_entry Samples.host "sale_created" Samples.sale 1])])].
Proof.
  rewrite (proj1 (sync_request_replies_with_snapshot Samples.host 2
                    (Samples.message "sync_request" [])
                    [Server.EvMessage 1 (Server.Parsed
                       (Samples.message "sale_update" [("data", Samples.sale)]))]
                    Samples.shop [] Samples.desk eq_refl eq_refl eq_refl)).
  vm_compute. reflexivity.
Defined.

(** C8, as stated, fails on [src/unnamed/part_000]: after an [auth] and
    the close of the connection, socket 1 has left the registry and its
    session is still in the table. *)
Lemma relay_session_outlives_connection :
  Relay.connections
    (fst (Relay.run [Relay.EvMessage 1 (Relay.Parsed Samples.auth_message);
                     Relay.EvClose 1] Samples.desk)) = [2]
  /\ Relay.sessions
       (fst (Relay.run [Relay.EvMessage 1 (Relay.Parsed Samples.auth_message);
                        Relay.EvClose 1] Samples.desk)) !! 1
     = Some {| Relay.userType := VStr "admin";
               Relay.userName := VStr "Esubalew";
               Relay.authenticated := VBool true |}.
Proof.
  split; [reflexivity|].
  change (Relay.sessions _) with
    (<[1 := {| Relay.userType := VStr "admin";
               Relay.userName := VStr "Esubalew";
               Relay.authenticated := VBool true |}]>
       (Relay.sessions Samples.desk)).
  apply lookup_insert_eq.
Qed.

(** C8, amended.  On the transport's close or error notification both
    servers remove the connection from the registry and leave the other
    connections and the cache as they are; [src/server.ts] also drops the
    session of that connection, and no other, so that there no session
    outlives its connection. *)
Theorem unregister_removes_connection
    (rt : Runtime) (by_error : bool) (ws : nat)
    (sw : Server.World) (rw : Relay.World) :
  let sw' := fst (Server.step rt
                    (if by_error then Server.EvError ws else Server.EvClose ws) sw) in
  let rw' := fst (Relay.step
                    (if by_error then Relay.EvError ws else Relay.EvClose ws) rw) in
  (~ In ws (Server.connections sw')
   /\ (forall c, In c (Server.connections sw') <-> In c (Server.connections sw) /\ c <> ws)
   /\ Server.sessions sw' !! ws = None
   /\ Server.sessions sw' = delete ws (Server.sessions sw)
   /\ Server.cache sw' = Server.cache sw)
  /\
  (~ In ws (Relay.connections rw')
   /\ (forall c, In c (Relay.connections rw') <-> In c (Relay.connections rw) /\ c <> ws)
   /\ Relay.cache rw' = Relay.cache rw).
Proof.
  intros sw' rw'.
  assert (Hs : sw' = Server.set_sessions (delete ws)
                       (Server.set_connections (Server.set_delete ws) sw))
    by (subst sw'; destruct by_error; reflexivity).
  assert (Hr : rw' = Relay.set_connections (Relay.set_delete ws) rw)
    by (subst rw'; destruct by_error; reflexivity).
  rewrite Hs, Hr. cbn. split.
  - split; [rewrite ServerFacts.set_delete_In; tauto|].
    split; [intros c; apply ServerFacts.set_delete_In|].
    split; [apply lookup_delete_eq|]. split; reflexivity.
  - split; [rewrite RelayFacts.relay_set_delete_In; tauto|].
    split; [intros c; apply RelayFacts.relay_set_delete_In|].
    reflexivity.
Qed.

(** C4, as stated, fails on [src/unnamed/part_000]: a frame that does not
    parse is answered with nothing at all. *)
Lemma relay_malformed_frame_gets_no_notice :
  Relay.onmessage 1 Relay.Malformed Samples.desk = (Normal tt, Samples.desk, [])
  /\ Relay.readyState Samples.desk 1 = Relay.OPEN.
Proof. split; reflexivity. Qed.

(** C4, amended.  A frame that does not parse, on an open connection,
    never escapes the handler and changes no state in either server: the
    cache, the registry and the sessions are as before, nothing is
    broadcast, and the frame that follows on the connection is handled as
    if the bad one had not come.  [src/server.ts] sends exactly one [error]
    message, to the sender only; [src/unnamed/part_000] sends nothing. *)
Theorem malformed_frame_is_contained
    (rt : Runtime) (ws : nat)
    (sw : Server.World) (next : Server.frame)
    (rw : Relay.World) (rnext : Relay.frame) :
  Server.readyState sw ws = Server.OPEN ->
  Relay.readyState rw ws = Relay.OPEN ->
  Server.onmessage rt ws Server.Malformed sw =
    (Normal tt, sw,
     [(ws, obj [("type", VStr "error"); ("message", VStr "Failed to process message")])])
  /\ Server.run rt [Server.EvMessage ws Server.Malformed; Server.EvMessage ws next] sw =
       (fst (Server.step rt (Server.EvMessage ws next) sw),
        (ws, obj [("type", VStr "error"); ("message", VStr "Failed to process message")])
          :: snd (Server.step rt (Server.EvMessage ws next) sw))
  /\ Relay.onmessage ws Relay.Malformed rw = (Normal tt, rw, [])
  /\ Relay.run [Relay.EvMessage ws Relay.Malformed; Relay.EvMessage ws rnext] rw =
       Relay.step (Relay.EvMessage ws rnext) rw.
Proof.
  intros Hs Hr.
  pose proof (ServerFacts.onmessage_malformed rt ws sw Hs) as Hbad.
  split; [exact Hbad|]. split; [|split; [reflexivity|]].
  - rewrite ServerFacts.run_two.
    assert (Hstep : Server.step rt (Server.EvMessage ws Server.Malformed) sw
                    = (sw, [(ws, Server.error_notice)])).
    { unfold Server.step, Server.quiet. rewrite Hbad. reflexivity. }
    rewrite Hstep. reflexivity.
  - rewrite RelayFacts.relay_run_two.
    change (Relay.step (Relay.EvMessage ws Relay.Malformed) rw)
      with (rw, @nil Relay.Send).
    cbn [fst snd app].
    destruct (Relay.step (Relay.EvMessage ws rnext) rw); reflexivity.
Qed.

Lemma malformed_frame_witness :
  Server.onmessage Samples.host 1 Server.Malformed Samples.shop =
    (Normal tt, Samples.shop,
     [(1, obj [("type", VStr "error"); ("message", VStr "Failed to process message")])]).
Proof.
  apply (malformed_frame_is_contained Samples.host 1 Samples.shop Server.Malformed
           Samples.desk Relay.Malformed eq_refl eq_refl).
Defined.

(** C3, as stated, fails on [src/unnamed/part_000]: a [stock_update] is
    relayed to the open connections and the cached stock collection stays
    what it was (here empty), not the payload.  It also fails on
    [src/server.ts] for a payload that is falsy, here the number 0: the
    cached stock collection becomes the empty array, not the payload. *)
Lemma relay_stock_update_leaves_cache :
  Relay.onmessage 1
    (Relay.Parsed (Samples.message "stock_update"
                     [("data", arr [Samples.stock_item "A1" 10])]))
    Samples.desk =
  (Normal tt, Samples.desk,
   [(1, obj [("type", VStr "stock_update"); ("data", arr [Samples.stock_item "A1" 10])]);
    (2, obj [("type", VStr "stock_update"); ("data", arr [Samples.stock_item "A1" 10])])])
  /\ Relay.stockItems (Relay.cache Samples.desk) = arr []
  /\ Server.stockItems (Server.cache (snd (fst
       (Server.onmessage Samples.host 1
          (Server.Parsed (Samples.message "stock_update" [("data", VNum 0)]))
          Samples.shop)))) = arr [].
Proof. repeat split; reflexivity. Qed.

(** C3, amended.  On a [stock_update] message [src/server.ts] replaces the
    cached stock collection with the payload when the payload is truthy and
    with the empty array otherwise, and broadcasts the new collection to
    every open registered connection; [src/unnamed/part_000] leaves the
    cache as it is and broadcasts the payload as it came. *)
Theorem stock_update_effect
    (rt : Runtime) (ws : nat) (message data : value)
    (sw : Server.World) (rw : Relay.World) :
  getProp message "type" = Normal (VStr "stock_update") ->
  getProp message "data" = Normal data ->
  let stock := if truthy data then data else arr [] in
  Server.onmessage rt ws (Server.Parsed message) sw =
    (Normal tt,
     Server.set_cache (Server.set_stockItems stock) sw,
     Server.fanout (obj [("type", VStr "stock_updated"); ("data", stock)]) sw)
  /\ Relay.onmessage ws (Relay.Parsed message) rw =
       (Normal tt, rw,
        Relay.fanout (obj [("type", VStr "stock_update"); ("data", data)]) rw).
Proof.
  intros Hty Hdata stock. split.
  - apply ServerFacts.onmessage_parsed.
    apply (ServerFacts.dispatch_stock_update rt ws message data sw Hty Hdata).
  - apply RelayFacts.relay_onmessage_parsed.
    apply (RelayFacts.relay_stock_update ws message data rw Hty Hdata).
Qed.

Lemma stock_update_witness :
  Server.stockItems (Server.cache (snd (fst
    (Server.onmessage Samples.host 1
       (Server.Parsed (Samples.message "stock_update"
                         [("data", arr [Samples.stock_item "C3" 40])]))
       Samples.shop)))) = arr [Samples.stock_item "C3" 40].
Proof.
  rewrite (proj1 (stock_update_effect Samples.host 1
                    (Samples.message "stock_update"
                       [("data", arr [Samples.stock_item "C3" 40])])
                    (arr [Samples.stock_item "C3" 40])
                    Samples.shop Samples.desk eq_refl eq_refl)).
  reflexivity.
Defined.

(** C6, as stated, fails on both servers.  [src/unnamed/part_000] creates
    a session for an [auth] message that carries neither field; and the
    answer of [src/server.ts] to an accepted [auth] holds the stock, sales
    and transactions collections but not the audit collection, although the
    cache has an audit entry. *)
Lemma auth_session_and_reply_differ :
  Relay.sessions
    (snd (fst (Relay.onmessage 1 (Relay.Parsed (Samples.message "auth" []))
                 Samples.desk))) !! 1
  = Some {| Relay.userType := VUndef; Relay.userName := VUndef;
            Relay.authenticated := VBool true |}
  /\ snd (Server.onmessage Samples.host 1 (Server.Parsed Samples.auth_message)
            Samples.shop_audited)
     = [(1, obj [("type", VStr "initial_data");
                 ("stockItems", arr [Samples.stock_item "A1" 10;
                                     Samples.stock_item "B2" 5]);
                 ("sales", arr []);
                 ("transactions", arr [])])]
  /\ List.length (Server.audit (Server.cache Samples.shop_audited)) = 1.
Proof.
  split; [|split; reflexivity].
  change (Relay.sessions _) with
    (<[1 := {| Relay.userType := VUndef; Relay.userName := VUndef;
               Relay.authenticated := VBool true |}]>
       (Relay.sessions Samples.desk)).
  apply lookup_insert_eq.
Qed.

(** C6, amended.  On an [auth] message from an open connection,
    [src/server.ts] creates or overwrites the session of the connection
    exactly when [userType] and [userName] are both truthy, and then answers
    that connection with an [initial_data] message holding the stock, sales
    and transactions collections (not the audit collection); otherwise it
    does nothing.  [src/unnamed/part_000] creates or overwrites the session
    for every [auth] message and answers with the [auth_success]
    acknowledgment. *)
Theorem auth_effect
    (rt : Runtime) (ws : nat) (message ut un : value)
    (sw : Server.World) (rw : Relay.World) :
  getProp message "type" = Normal (VStr "auth") ->
  getProp message "userType" = Normal ut ->
  getProp message "userName" = Normal un ->
  Server.readyState sw ws = Server.OPEN ->
  Relay.readyState rw ws = Relay.OPEN ->
  Server.onmessage rt ws (Server.Parsed message) sw =
    (if truthy ut && truthy un
     then (Normal tt,
           Server.set_sessions
             (insert ws {| Server.userType := ut; Server.userName := un;
                           Server.timestamp := VNum (Date_now rt (Server.ticks sw)) |})
             (Server.tick sw),
           [(ws, obj [("type", VStr "initial_data");
                      ("stockItems", Server.stockItems (Server.cache sw));
                      ("sales", arr (Server.sales (Server.cache sw)));
                      ("transactions", arr (Server.transactions (Server.cache sw)))])])
     else (Normal tt, sw, []))
  /\ Relay.onmessage ws (Relay.Parsed message) rw =
       (Normal tt,
        Relay.set_sessions
          (insert ws {| Relay.userType := ut; Relay.userName := un;
                        Relay.authenticated := VBool true |}) rw,
        [(ws, obj [("type", VStr "auth_success"); ("message", VStr "Authenticated")])]).
Proof.
  intros Hty Hut Hun Hs Hr. split.
  - destruct (truthy ut && truthy un) eqn:E; apply ServerFacts.onmessage_parsed.
    + apply andb_true_iff in E as [Eut Eun].
      apply (ServerFacts.dispatch_auth_accepted rt ws message ut un sw); assumption.
    + apply (ServerFacts.dispatch_auth_refused rt ws message ut un sw); assumption.
  - apply RelayFacts.relay_onmessage_parsed.
    apply (RelayFacts.relay_auth ws message ut un rw); assumption.
Qed.

Lemma auth_witness :
  Server.sessions
    (snd (fst (Server.onmessage Samples.host 1 (Server.Parsed Samples.auth_message)
                 Samples.shop))) !! 1
  = Some {| Server.userType := VStr "admin"; Server.userName := VStr "Esubalew";
            Server.timestamp := VNum 1700000000000 |}.
Proof.
  rewrite (proj1 (auth_effect Samples.host 1 Samples.auth_message
                    (VStr "admin") (VStr "Esubalew") Samples.shop Samples.desk
                    eq_refl eq_refl eq_refl eq_refl eq_refl)).
  cbn [truthy String.eqb negb andb fst snd Server.sessions Server.set_sessions].
  apply lookup_insert_eq.
Defined.

(** C2, as stated, fails on [src/unnamed/part_000]: the same sale leaves
    the cached sales collection with one record when it comes through
    [POST /api/sales] and empty when it comes as a [sale_update] message. *)
Lemma post_and_socket_sale_leave_different_caches :
  Relay.sales (Relay.cache (fst
    (Relay.step (Relay.EvRequest Samples.no_socket (Samples.post_sale Samples.sale))
       Samples.desk))) = arr [Samples.sale]
  /\ Relay.sales (Relay.cache (fst
       (Relay.step (Relay.EvMessage 1 (Relay.Parsed
                      (Samples.message "sale_update" [("data", Samples.sale)])))
          Samples.desk))) = arr [].
Proof. split; reflexivity. Qed.

(** C2, amended.  In [src/unnamed/part_000], when the cached sales
    collection is an array, a [POST /api/sales] request with body [B] and a
    [sale_update] message with payload [B] hand the same message
    [{type: 'sale_update', data: B}] to the same connections, every open
    registered one; the request also appends [B] to the cached sales
    collection and is answered with success, whereas the message leaves the
    cache and the rest of the state as they are. *)
Theorem post_and_socket_sale_broadcast_alike
    (socket : completion Relay.conn) (req : Relay.Request)
    (ws : Relay.conn) (message body : value)
    (elems : list value) (own : list (string * value)) (w : Relay.World) :
  Relay.pathname req = "/api/sales" ->
  Relay.method req = "POST" ->
  Relay.json req = Normal body ->
  getProp message "type" = Normal (VStr "sale_update") ->
  getProp message "data" = Normal body ->
  Relay.sales (Relay.cache w) = VArr elems own ->
  Relay.handleRequest socket req w =
    (Normal (Relay.ApiResponse 200 (Some (obj [("success", VBool true)]))),
     Relay.set_cache (Relay.set_sales (VArr (elems ++ [body]) own)) w,
     Relay.fanout (obj [("type", VStr "sale_update"); ("data", body)]) w)
  /\ Relay.onmessage ws (Relay.Parsed message) w =
       (Normal tt, w,
        Relay.fanout (obj [("type", VStr "sale_update"); ("data", body)]) w).
Proof.
  intros Hpath Hmethod Hjson Hty Hdata Hsales. split.
  - apply (RelayFacts.post_sales_run socket req body elems own w); assumption.
  - apply RelayFacts.relay_onmessage_parsed.
    apply (RelayFacts.relay_sale_update ws message body w); assumption.
Qed.

Lemma post_and_socket_sale_witness :
  snd (Relay.handleRequest Samples.no_socket (Samples.post_sale Samples.sale) Samples.desk)
  = snd (Relay.onmessage 1
           (Relay.Parsed (Samples.message "sale_update" [("data", Samples.sale)]))
           Samples.desk).
Proof.
  destruct (post_and_socket_sale_broadcast_alike Samples.no_socket
              (Samples.post_sale Samples.sale) 1
              (Samples.message "sale_update" [("data", Samples.sale)])
              Samples.sale [] [] Samples.desk
              eq_refl eq_refl eq_refl eq_refl eq_refl eq_refl) as [Hpost Hsock].
  rewrite Hpost, Hsock. reflexivity.
Defined.

(** C1, as stated, fails on [src/server.ts] in two ways.  When [items] is
    a single line item instead of an array, the sale is stored and
    broadcast, the stock adjustment throws, the sender gets the [error]
    notice, and no audit entry is written or broadcast.  When two cached
    stock items carry the identifier of a line item, only the first of them
    is decremented. *)
Lemma sale_update_skips_audit_or_second_match :
  (Server.sales (Server.cache (snd (fst
     (Server.onmessage Samples.host 1
        (Server.Parsed (Samples.message "sale_update" [("data", Samples.sale_single)]))
        Samples.shop))))
   = [Server.stamped Samples.host Samples.sale_single 0]
   /\ Server.audit (Server.cache (snd (fst
        (Server.onmessage Samples.host 1
           (Server.Parsed (Samples.message "sale_update" [("data", Samples.sale_single)]))
           Samples.shop))))
      = []
   /\ snd (Server.onmessage Samples.host 1
             (Server.Parsed (Samples.message "sale_update" [("data", Samples.sale_single)]))
             Samples.shop)
      = [(1, obj [("type", VStr "sales_updated");
                  ("data", arr [Server.stamped Samples.host Samples.sale_single 0])]);
         (2, obj [("type", VStr "sales_updated");
                  ("data", arr [Server.stamped Samples.host Samples.sale_single 0])]);
         (1, obj [("type", VStr "error");
                  ("message", VStr "Failed to process message")])])
  /\ Server.stockItems (Server.cache (snd (fst
       (Server.onmessage Samples.host 1
          (Server.Parsed (Samples.message "sale_update"
             [("data", obj [("items", arr [Samples.line_item "A1" 3])])]))
          Samples.shop_twins))))
     = arr [Samples.stock_item "A1" 7; Samples.stock_item "A1" 10].
Proof. repeat split; vm_compute; reflexivity. Qed.

(** C1, amended.  For every [sale_update] message whose [data] is truthy,
    when [items] is falsy, or is an array of records while the cached stock
    collection is an array of records, [src/server.ts] appends the sale
    record, stamped with the clock, to the sales collection; broadcasts the
    updated sales collection; then, for each line item in order, decrements
    the quantity of the first cached stock item whose [id] is strictly equal
    to the line item's by the line item's quantity (the stock collection is
    unchanged, and nothing is thrown, for a line item whose [id] no stock
    item carries); appends an audit entry for the sale, stamped with the
    next reading of the clock; and broadcasts the updated audit collection.
    Registry, sessions and transactions are unchanged. *)
Theorem sale_update_effect
    (rt : Runtime) (ws : Server.conn) (message data items : value)
    (w : Server.World) :
  getProp message "type" = Normal (VStr "sale_update") ->
  getProp message "data" = Normal data ->
  truthy data = true ->
  getProp data "items" = Normal items ->
  Server.well_shaped items (Server.stockItems (Server.cache w)) ->
  exists stock',
    Server.stock_after rt items (Server.stockItems (Server.cache w)) stock'
    /\ (forall line iown elems sown,
          items = VArr line iown ->
          Server.stockItems (Server.cache w) = VArr elems sown ->
          (forall item s, In item line -> In s elems -> ~ Server.names item s) ->
          stock' = Server.stockItems (Server.cache w))
    /\ Server.onmessage rt ws (Server.Parsed message) w =
       (Normal tt,
        {| Server.connections := Server.connections w;
           Server.sessions := Server.sessions w;
           Server.cache :=
             {| Server.stockItems := stock';
                Server.sales :=
                  Server.sales (Server.cache w)
                  ++ [obj (define_own "timestamp"
                             (VNum (Date_now rt (Server.ticks w)))
                             (spread data []))];
                Server.transactions := Server.transactions (Server.cache w);
                Server.audit :=
                  Server.audit (Server.cache w)
                  ++ [obj [("action", VStr "sale_created");
                           ("data", data);
                           ("timestamp", VNum (Date_now rt (S (Server.ticks w))))]] |};
           Server.readyState := Server.readyState w;
           Server.ticks := S (S (Server.ticks w)) |},
        Server.fanout
          (obj [("type", VStr "sales_updated");
                ("data", arr (Server.sales (Server.cache w)
                              ++ [obj (define_own "timestamp"
                                         (VNum (Date_now rt (Server.ticks w)))
                                         (spread data []))]))]) w
        ++ Server.fanout
             (obj [("type", VStr "audit_updated");
                   ("data", arr (Server.audit (Server.cache w)
                                 ++ [obj [("action", VStr "sale_created");
                                          ("data", data);
                                          ("timestamp",
                                           VNum (Date_now rt (S (Server.ticks w))))]]))]) w).
Proof.
  intros Hty Hdata Ht Hitems Hshape.
  set (w1 := Server.set_cache
               (Server.push_sale (Server.stamped rt data (Server.ticks w)))
               (Server.tick w)).
  assert (Hstep : forall w2 o2,
             (Eff.bind (if truthy items then Server.updateStockLevels rt items
                        else Eff.ret tt)
                (fun _ => Server.logAudit rt "sale_created" data)) w1
             = (Normal tt, w2, o2) ->
             Server.onmessage rt ws (Server.Parsed message) w =
             (Normal tt, w2,
              Server.fanout
                (obj [("type", VStr "sales_updated");
                      ("data", arr (Server.sales (Server.cache w)
                                    ++ [Server.stamped rt data (Server.ticks w)]))]) w
              ++ o2)).
  { intros w2 o2 Hrest. apply ServerFacts.onmessage_parsed.
    unfold Server.dispatch. ServerFacts.pick_case Hty.
    rewrite (bind_lift _ _ _ _ Hdata), Ht, ServerFacts.bind_now, bind_modify, bind_gets.
    rewrite ServerFacts.bind_broadcast, (bind_lift _ _ _ _ Hitems).
    change (Server.set_cache _ (Server.tick w)) with w1.
    rewrite Hrest. reflexivity. }
  destruct Hshape as [Hfalsy | (line & iown & elems & sown & -> & Hstock & Hline & Hrec)].
  - exists (Server.stockItems (Server.cache w)).
    split; [constructor; exact Hfalsy|]. split; [reflexivity|].
    rewrite (Hstep _ _ ltac:(rewrite Hfalsy, bind_ret, ServerFacts.logAudit_run; reflexivity)).
    destruct w as [cs ss [st sa tr au] rs tk]. reflexivity.
  - destruct (ServerFacts.forEach_adjustStock rt line elems sown w1
                Hstock Hrec Hline) as (elems' & Hrun & Hall & _).
    exists (VArr elems' sown).
    split; [econstructor; eauto|]. split.
    + intros line0 iown0 elems0 sown0 [= <- <-] Hstock0 Hmiss.
      rewrite Hstock0 in Hstock. injection Hstock as <- <-.
      rewrite Hstock0. f_equal.
      eapply ServerFacts.adjusted_all_miss; eauto.
    + rewrite (Hstep _ _ ltac:(cbn [truthy Server.updateStockLevels];
                               rewrite (bind_normal _ _ _ _ _ _ Hrun),
                                 ServerFacts.logAudit_run; reflexivity)).
      destruct w as [cs ss [st sa tr au] rs tk]. reflexivity.
Qed.

Lemma sale_update_witness :
  exists stock',
    Server.stock_after Samples.host
      (arr [Samples.line_item "A1" 3; Samples.line_item "ZZ" 1])
      (Server.stockItems (Server.cache Samples.shop)) stock'
    /\ Server.stockItems (Server.cache (snd (fst
         (Server.onmessage Samples.host 1
            (Server.Parsed (Samples.message "sale_update" [("data", Samples.sale)]))
            Samples.shop)))) = stock'.
Proof.
  destruct (sale_update_effect Samples.host 1
              (Samples.message "sale_update" [("data", Samples.sale)])
              Samples.sale
              (arr [Samples.line_item "A1" 3; Samples.line_item "ZZ" 1])
              Samples.shop eq_refl eq_refl eq_refl eq_refl)
    as (stock' & Hafter & _ & Hrun).
  - right. exists [Samples.line_item "A1" 3; Samples.line_item "ZZ" 1], [],
      [Samples.stock_item "A1" 10; Samples.stock_item "B2" 5], [].
    repeat split; repeat constructor.
  - exists stock'. split; [exact Hafter|]. rewrite Hrun. reflexivity.
Defined.

(** ** Beyond the claims: frames, invariants and the remaining handlers *)

Module FrameFacts.
Import Frame.

Section Keeps.
Context {S O : Type}.
Variable R : S -> S -> Prop.
Context `{!PreOrder R}.

Lemma keeps_ret {A} (a : A) : keeps R (@ret S O A a).
Proof. intros s r s' o [= _ <- _]. reflexivity. Qed.

Lemma keeps_throw {A} (e : exn) : keeps R (@throw S O A e).
Proof. intros s r s' o [= _ <- _]. reflexivity. Qed.

Lemma keeps_lift {A} (c : completion A) : keeps R (@lift S O A c).
Proof. intros s r s' o [= _ <- _]. reflexivity. Qed.

Lemma keeps_gets {A} (f : S -> A) : keeps R (@gets S O A f).
Proof. intros s r s' o [= _ <- _]. reflexivity. Qed.

Lemma keeps_get : keeps R (@get S O).
Proof. intros s r s' o [= _ <- _]. reflexivity. Qed.

Lemma keeps_emit (x : O) : keeps R (@emit S O x).
Proof. intros s r s' o [= _ <- _]. reflexivity. Qed.

Lemma keeps_modify (f : S -> S) : (forall s, R s (f s)) -> keeps R (@modify S O f).
Proof. intros Hf s r s' o [= _ <- _]. apply Hf. Qed.

Lemma keeps_bind {A B} (m : M S O A) (k : A -> M S O B) :
  keeps R m -> (forall a, keeps R (k a)) -> keeps R (bind m k).
Proof.
  intros Hm Hk s r s' o. unfold bind.
  destruct (m s) as [[[a|e] s1] o1] eqn:Em.
  - destruct (k a s1) as [[r2 s2] o2] eqn:Ek. intros [= _ <- _].
    transitivity s1; [eapply Hm, Em | eapply Hk, Ek].
  - intros [= _ <- _]. eapply Hm, Em.
Qed.

(** The continuation of a pure expression only runs on its value. *)
Lemma keeps_bind_lift {A B} (c : completion A) (k : A -> M S O B) :
  (forall a, c = Normal a -> keeps R (k a)) -> keeps R (bind (lift c) k).
Proof.
  intros Hk s r s' o. unfold bind, lift. destruct c as [a|e].
  - destruct (k a s) as [[r2 s2] o2] eqn:Ek. intros [= _ <- _].
    eapply (Hk a eq_refl), Ek.
  - intros [= _ <- _]. reflexivity.
Qed.

Lemma keeps_try_catch {A} (body : M S O A) (handler : exn -> M S O A) :
  keeps R body -> (forall e, keeps R (handler e)) -> keeps R (try_catch body handler).
Proof.
  intros Hb Hh s r s' o. unfold try_catch.
  destruct (body s) as [[[a|e] s1] o1] eqn:Eb.
  - intros [= _ <- _]. eapply Hb, Eb.
  - destruct (handler e s1) as [[r2 s2] o2] eqn:Eh. intros [= _ <- _].
    transitivity s1; [eapply Hb, Eb | eapply Hh, Eh].
Qed.

Lemma keeps_forEach {A} (l : list A) (body : A -> M S O unit) :
  (forall a, keeps R (body a)) -> keeps R (forEach l body).
Proof.
  intros Hb. induction l as [|a l IH]; cbn [forEach].
  - apply keeps_ret.
  - apply keeps_bind; [apply Hb | intros _; exact IH].
Qed.

End Keeps.

(** Apply a frame lemma and let the order on states be found. *)
Tactic Notation "frame" uconstr(l) := (apply l; try typeclasses eauto).

End FrameFacts.

(** *** [src/server.ts]: what a WebSocket frame cannot do *)
Module ServerFrame.
Import Frame FrameFacts Server.

#[global] Instance server_grows_preorder : PreOrder server_grows.
Proof.
  split.
  - intros w. unfold server_grows. repeat split; reflexivity.
  - intros w1 w2 w3 (Hc1 & Hr1 & Hs1 & Ht1 & Ha1 & Hk1) (Hc2 & Hr2 & Hs2 & Ht2 & Ha2 & Hk2).
    unfold server_grows. repeat split; try congruence; try (etransitivity; eassumption).
Qed.

Ltac grows :=
  unfold server_grows; cbn;
  repeat split; try reflexivity; try (apply prefix_app_r; reflexivity); try lia.

Section Handlers.
Variable R : World -> World -> Prop.
Context `{!PreOrder R}.

Lemma keeps_send ws message : keeps R (send ws message).
Proof.
  unfold send. frame keeps_bind; [frame keeps_gets|]. intros state.
  destruct (Nat.eqb state OPEN); [frame keeps_emit | frame keeps_throw].
Qed.

Lemma keeps_broadcast message : keeps R (broadcast message).
Proof.
  unfold broadcast. frame keeps_bind; [frame keeps_gets|]. intros conns.
  frame keeps_forEach. intros c. unfold deliver.
  frame keeps_bind; [frame keeps_gets|]. intros state.
  destruct (Nat.eqb state OPEN); [frame keeps_send | frame keeps_ret].
Qed.

End Handlers.

Lemma grows_now rt : keeps server_grows (now rt).
Proof. intros w r w' o [= _ <- _]. grows. Qed.

Lemma grows_logAudit rt action data : keeps server_grows (logAudit rt action data).
Proof.
  unfold logAudit. frame keeps_bind; [apply grows_now|]. intros t. cbv zeta.
  frame keeps_bind; [frame keeps_modify; intros w; grows|]. intros _.
  frame keeps_bind; [frame keeps_gets|]. intros entries. frame keeps_broadcast.
Qed.

Lemma grows_adjustStock rt item : keeps server_grows (adjustStock rt item).
Proof.
  unfold adjustStock. frame keeps_bind; [frame keeps_gets|]. intros stock.
  destruct stock; try frame keeps_throw.
  frame keeps_bind; [frame keeps_lift|]. intros [[i stockItem]|]; [|frame keeps_ret].
  destruct (truthy stockItem); [|frame keeps_ret].
  repeat (frame keeps_bind; [frame keeps_lift|]; intros ?).
  frame keeps_modify. intros w. grows.
Qed.

Lemma grows_updateStockLevels rt items : keeps server_grows (updateStockLevels rt items).
Proof.
  unfold updateStockLevels. destruct items; try frame keeps_throw.
  frame keeps_forEach. intros item. apply grows_adjustStock.
Qed.

Lemma grows_dispatch rt ws message : keeps server_grows (dispatch rt ws message).
Proof.
  unfold dispatch. frame keeps_bind; [frame keeps_lift|]. intros ty.
  destruct (is_type ty "auth").
  { repeat (frame keeps_bind; [frame keeps_lift|]; intros ?).
    destruct (truthy _); [|frame keeps_ret].
    frame keeps_bind; [apply grows_now|]. intros t.
    frame keeps_bind; [frame keeps_modify; intros w; grows|]. intros _.
    frame keeps_bind; [frame keeps_gets|]. intros c. frame keeps_send. }
  destruct (is_type ty "stock_update").
  { frame keeps_bind; [frame keeps_lift|]. intros data.
    frame keeps_bind; [frame keeps_modify; intros w; grows|]. intros _.
    frame keeps_bind; [frame keeps_gets|]. intros stock. frame keeps_broadcast. }
  destruct (is_type ty "sale_update").
  { frame keeps_bind; [frame keeps_lift|]. intros data.
    destruct (truthy data); [|frame keeps_ret].
    frame keeps_bind; [apply grows_now|]. intros t.
    frame keeps_bind; [frame keeps_modify; intros w; grows|]. intros _.
    frame keeps_bind; [frame keeps_gets|]. intros all.
    frame keeps_bind; [frame keeps_broadcast|]. intros _.
    frame keeps_bind; [frame keeps_lift|]. intros items.
    frame keeps_bind; [|intros _; apply grows_logAudit].
    destruct (truthy items); [apply grows_updateStockLevels | frame keeps_ret]. }
  destruct (is_type ty "transaction_update").
  { frame keeps_bind; [frame keeps_lift|]. intros data.
    destruct (truthy data); [|frame keeps_ret].
    frame keeps_bind; [apply grows_now|]. intros t.
    frame keeps_bind; [frame keeps_modify; intros w; grows|]. intros _.
    frame keeps_bind; [frame keeps_gets|]. intros all.
    frame keeps_bind; [frame keeps_broadcast|]. intros _.
    apply grows_logAudit. }
  destruct (is_type ty "sync_request"); [|frame keeps_ret].
  frame keeps_bind; [frame keeps_gets|]. intros c. frame keeps_send.
Qed.

Lemma grows_onmessage rt ws f : keeps server_grows (onmessage rt ws f).
Proof.
  unfold onmessage. frame keeps_try_catch.
  - destruct f; [frame keeps_throw | apply grows_dispatch].
  - intros e. frame keeps_send.
Qed.

End ServerFrame.

Import Frame FrameFacts.

(** X1.  Whatever frame arrives on whatever socket, [ws.onmessage] of
    [src/server.ts] leaves the registry and the state of every transport as
    they are, only ever appends to the sales, transactions and audit
    collections (no stored record is removed or rewritten) and only advances
    the clock. *)
Theorem server_frame_only_appends
    (rt : Runtime) (ws : Server.conn) (f : Server.frame) (w : Server.World) :
  let w' := fst (Server.step rt (Server.EvMessage ws f) w) in
  Server.connections w' = Server.connections w
  /\ Server.readyState w' = Server.readyState w
  /\ (exists more, Server.sales (Server.cache w') = Server.sales (Server.cache w) ++ more)
  /\ (exists more, Server.transactions (Server.cache w')
                   = Server.transactions (Server.cache w) ++ more)
  /\ (exists more, Server.audit (Server.cache w') = Server.audit (Server.cache w) ++ more)
  /\ Server.ticks w <= Server.ticks w'.
Proof.
  intros w'. subst w'. cbn [Server.step]. unfold Server.quiet.
  destruct (Server.onmessage rt ws f w) as [[r w1] o] eqn:E.
  exact (ServerFrame.grows_onmessage rt ws f w r w1 o E).
Qed.



(** *** [src/server.ts]: the registry is a set *)
Module ServerRegistry.
Import Server.

#[global] Instance server_distinct_preorder : PreOrder server_distinct.
Proof.
  split.
  - intros w H. exact H.
  - intros w1 w2 w3 H12 H23 H. apply H23, H12, H.
Qed.

Lemma existsb_eqb_In (c : conn) (l : list conn) :
  existsb (Nat.eqb c) l = true <-> In c l.
Proof.
  rewrite existsb_exists. split.
  - intros (x & Hin & Heq). apply Nat.eqb_eq in Heq. subst. exact Hin.
  - intros Hin. exists c. split; [exact Hin | apply Nat.eqb_refl].
Qed.

Lemma set_add_NoDup ws l : NoDup l -> NoDup (set_add ws l).
Proof.
  intros Hl. unfold set_add. destruct (existsb (Nat.eqb ws) l) eqn:E; [exact Hl|].
  apply NoDup_app. split; [exact Hl|]. split; [|apply NoDup_singleton].
  intros x Hx [->|[]]%list_elem_of_In. apply list_elem_of_In in Hx.
  apply existsb_eqb_In in Hx. congruence.
Qed.

Lemma set_delete_NoDup ws l : NoDup l -> NoDup (set_delete ws l).
Proof.
  intros Hl. unfold set_delete. induction Hl as [|x l Hx Hl IH]; cbn; [constructor|].
  destruct (negb (Nat.eqb x ws)); [|exact IH].
  constructor; [|exact IH]. rewrite list_elem_of_In, filter_In.
  intros [Hin _]. apply Hx, list_elem_of_In, Hin.
Qed.

Lemma set_add_In ws c l : In c (set_add ws l) <-> c = ws \/ In c l.
Proof.
  unfold set_add. destruct (existsb (Nat.eqb ws) l) eqn:E.
  - apply existsb_eqb_In in E. split; [auto|]. intros [->|H]; assumption.
  - rewrite in_app_iff. cbn. split; [intros [H|[H|[]]]; auto | intros [->|H]; auto].
Qed.

Lemma distinct_handleRequest socket req : keeps server_distinct (handleRequest socket req).
Proof.
  unfold handleRequest.
  destruct (match upgrade req with Some h => String.eqb h "websocket" | None => false end).
  { frame keeps_bind; [frame keeps_lift|]. intros ws.
    frame keeps_bind; [|intros _; frame keeps_ret].
    unfold handleWebSocket. apply keeps_modify. intros w H. apply set_add_NoDup, H. }
  destruct (String.prefix "/api/" (pathname req)); [|frame keeps_ret]. cbv zeta.
  destruct (String.eqb _ "health").
  { frame keeps_bind; [frame keeps_get|]. intros w.
    frame keeps_bind; [frame keeps_lift|]. intros n. frame keeps_ret. }
  destruct (String.eqb _ "clear-cache").
  { destruct (String.eqb (method req) "POST"); [|frame keeps_ret].
    frame keeps_bind; [apply keeps_modify; intros w H; exact H|]. intros _.
    frame keeps_bind; [frame ServerFrame.keeps_broadcast|]. intros _. frame keeps_ret. }
  destruct (String.eqb _ "test-supabase"); frame keeps_ret.
Qed.

Lemma distinct_step rt ev w :
  NoDup (connections w) -> NoDup (connections (fst (step rt ev w))).
Proof.
  intros Hw. destruct ev as [socket req|ws state|ws|ws f|ws|ws]; cbn [step]; unfold quiet.
  - destruct (handleRequest socket req w) as [[r w1] o] eqn:E.
    exact (distinct_handleRequest socket req w r w1 o E Hw).
  - exact Hw.
  - destruct (onopen ws w) as [[r w1] o] eqn:E.
    assert (H : keeps server_distinct (onopen ws)) by (frame ServerFrame.keeps_send).
    exact (H w r w1 o E Hw).
  - destruct (onmessage rt ws f w) as [[r w1] o] eqn:E.
    destruct (ServerFrame.grows_onmessage rt ws f w r w1 o E) as [Hc _].
    cbn [fst]. rewrite Hc. exact Hw.
  - apply set_delete_NoDup, Hw.
  - apply set_delete_NoDup, Hw.
Qed.

Lemma copies_fanout_distinct (message : value) (c : conn) (l : list conn) :
  NoDup l ->
  copies c (map (fun x => (x, message)) l) = if existsb (Nat.eqb c) l then 1 else 0.
Proof.
  unfold copies. induction 1 as [|x l Hx Hl IH]; [reflexivity|].
  cbn [map List.filter existsb fst]. rewrite (Nat.eqb_sym c x).
  destruct (Nat.eqb x c) eqn:E; cbn [orb List.length].
  - apply Nat.eqb_eq in E. subst x. rewrite IH.
    destruct (existsb (Nat.eqb c) l) eqn:El; [|reflexivity].
    apply existsb_eqb_In in El. exfalso. apply Hx, list_elem_of_In, El.
  - exact IH.
Qed.

End ServerRegistry.

(** X3.  The connection registry of [src/server.ts] behaves as a set:
    starting from a registry that holds no socket twice (the empty one of a
    fresh process in particular), no sequence of requests, handshakes,
    frames, closes and errors makes it hold a socket twice. *)
Theorem server_registry_stays_distinct
    (rt : Runtime) (evs : list Server.event) (w : Server.World) :
  NoDup (Server.connections w) ->
  NoDup (Server.connections (fst (Server.run rt evs w))).
Proof.
  revert w. induction evs as [|ev evs IH]; intros w Hw; [exact Hw|].
  cbn [Server.run].
  pose proof (ServerRegistry.distinct_step rt ev w Hw) as H1.
  destruct (Server.step rt ev w) as [w1 o1]. cbn [fst] in H1.
  specialize (IH w1 H1). destruct (Server.run rt evs w1) as [w2 o2]. exact IH.
Qed.

Lemma server_registry_stays_distinct_witness :
  NoDup (Server.connections (fst (Server.run Samples.host
    [Server.EvRequest (Normal 4)
       {| Server.upgrade := Some "websocket"; Server.pathname := "/";
          Server.method := "GET" |};
     Server.EvRequest (Normal 4)
       {| Server.upgrade := Some "websocket"; Server.pathname := "/";
          Server.method := "GET" |};
     Server.EvClose 2]
    (Server.init Samples.ready)))).
Proof.
  apply (server_registry_stays_distinct Samples.host _ (Server.init Samples.ready)).
  constructor.
Defined.

(** X4.  [broadcast] of [src/server.ts] changes no state and never throws;
    when the registry holds no socket twice, a connection is handed exactly
    one copy of the message if it is registered and its transport is open,
    and none otherwise; nothing but the message is sent. *)
Theorem server_broadcast_once_per_open_connection
    (message : value) (c : Server.conn) (w : Server.World) :
  NoDup (Server.connections w) ->
  exists out,
    Server.broadcast message w = (Normal tt, w, out)
    /\ copies c out
       = (if existsb (Nat.eqb c) (Server.connections w)
             && Nat.eqb (Server.readyState w c) Server.OPEN
          then 1 else 0)
    /\ Forall (fun s => snd s = message) out.
Proof.
  intros Hw. exists (Server.fanout message w).
  split; [apply ServerFacts.broadcast_run|]. unfold Server.fanout, Server.audience. split.
  - assert (Hf : NoDup (List.filter (fun c => Nat.eqb (Server.readyState w c) Server.OPEN)
                          (Server.connections w))).
    { apply NoDup_ListNoDup, List.NoDup_filter, NoDup_ListNoDup, Hw. }
    rewrite (ServerRegistry.copies_fanout_distinct message c _ Hf).
    match goal with
    | |- context [existsb (Nat.eqb c) (List.filter ?f ?l)] =>
        destruct (existsb (Nat.eqb c) (List.filter f l)) eqn:E
    end.
    + apply ServerRegistry.existsb_eqb_In, filter_In in E as [Hin Hopen].
      apply ServerRegistry.existsb_eqb_In in Hin. rewrite Hin, Hopen. reflexivity.
    + destruct (existsb (Nat.eqb c) (Server.connections w)) eqn:Ein; [|reflexivity].
      destruct (Nat.eqb (Server.readyState w c) Server.OPEN) eqn:Eo; [|reflexivity].
      exfalso. apply ServerRegistry.existsb_eqb_In in Ein.
      assert (Hc : In c (List.filter (fun c => Nat.eqb (Server.readyState w c) Server.OPEN)
                           (Server.connections w))) by (apply filter_In; auto).
      apply ServerRegistry.existsb_eqb_In in Hc. congruence.
  - apply Forall_forall. intros s Hs. apply list_elem_of_In, in_map_iff in Hs.
    destruct Hs as (x & <- & _). reflexivity.
Qed.

Lemma server_broadcast_once_witness :
  exists out,
    Server.broadcast (obj [("type", VStr "cache_cleared")]) Samples.shop
      = (Normal tt, Samples.shop, out)
    /\ copies 3 out = 0
    /\ Forall (fun s => snd s = obj [("type", VStr "cache_cleared")]) out.
Proof.
  apply (server_broadcast_once_per_open_connection
           (obj [("type", VStr "cache_cleared")]) 3 Samples.shop).
  repeat constructor; cbn; rewrite ?list_elem_of_In; cbn; intuition discriminate.
Defined.

(** *** [src/server.ts]: the remaining branches of the router *)

Lemma bind_throws {S O A B} (m : M S O A) (k : A -> M S O B) (s s1 : S) e o1 :
  m s = (Throw e, s1, o1) -> bind m k s = (Throw e, s1, o1).
Proof. intros H. rewrite bind_run, H. reflexivity. Qed.

Lemma strict_eq_str (ty : value) (name : string) :
  strict_eq ty (VStr name) = true <-> ty = VStr name.
Proof.
  destruct ty; cbn; try (split; [discriminate | discriminate]).
  rewrite String.eqb_eq. split; [intros ->; reflexivity | intros [= ->]; reflexivity].
Qed.

Lemma strict_eq_other (ty : value) (name : string) :
  ty <> VStr name -> strict_eq ty (VStr name) = false.
Proof.
  intros H. destruct (strict_eq ty (VStr name)) eqn:E; [|reflexivity].
  apply strict_eq_str in E. contradiction.
Qed.

(** X5.  A [transaction_update] message with a truthy [data] makes
    [src/server.ts] append the transaction, stamped with the clock, to the
    transactions collection, broadcast the updated collection, append a
    [transaction_created] audit entry stamped with the next reading of the
    clock and broadcast the updated audit collection; stock, sales, registry
    and sessions are unchanged. *)
Theorem transaction_update_effect
    (rt : Runtime) (ws : Server.conn) (message data : value) (w : Server.World) :
  getProp message "type" = Normal (VStr "transaction_update") ->
  getProp message "data" = Normal data ->
  truthy data = true ->
  Server.onmessage rt ws (Server.Parsed message) w =
  (Normal tt,
   {| Server.connections := Server.connections w;
      Server.sessions := Server.sessions w;
      Server.cache :=
        {| Server.stockItems := Server.stockItems (Server.cache w);
           Server.sales := Server.sales (Server.cache w);
           Server.transactions :=
             Server.transactions (Server.cache w)
             ++ [obj (define_own "timestamp" (VNum (Date_now rt (Server.ticks w)))
                        (spread data []))];
           Server.audit :=
             Server.audit (Server.cache w)
             ++ [obj [("action", VStr "transaction_created");
                      ("data", data);
                      ("timestamp", VNum (Date_now rt (S (Server.ticks w))))]] |};
      Server.readyState := Server.readyState w;
      Server.ticks := S (S (Server.ticks w)) |},
   Server.fanout
     (obj [("type", VStr "transactions_updated");
           ("data", arr (Server.transactions (Server.cache w)
                         ++ [obj (define_own "timestamp"
                                    (VNum (Date_now rt (Server.ticks w)))
                                    (spread data []))]))]) w
   ++ Server.fanout
        (obj [("type", VStr "audit_updated");
              ("data", arr (Server.audit (Server.cache w)
                            ++ [obj [("action", VStr "transaction_created");
                                     ("data", data);
                                     ("timestamp",
                                      VNum (Date_now rt (S (Server.ticks w))))]]))]) w).
Proof.
  intros Hty Hdata Ht. apply ServerFacts.onmessage_parsed.
  rewrite (ServerFacts.dispatch_transaction_update rt ws message data w Hty Hdata Ht).
  destruct w as [cs ss [st sa tr au] rs tk]. reflexivity.
Qed.

Lemma transaction_update_witness :
  Server.transactions (Server.cache (snd (fst
    (Server.onmessage Samples.host 1
       (Server.Parsed (Samples.message "transaction_update"
                         [("data", obj [("amount", VNum 250)])]))
       Samples.shop))))
  = [obj [("amount", VNum 250); ("timestamp", VNum 1700000000000)]].
Proof.
  rewrite (transaction_update_effect Samples.host 1
             (Samples.message "transaction_update" [("data", obj [("amount", VNum 250)])])
             (obj [("amount", VNum 250)]) Samples.shop eq_refl eq_refl eq_refl).
  vm_compute. reflexivity.
Defined.

(** X6.  [src/server.ts] ignores a message whose [type] is none of [auth],
    [stock_update], [sale_update], [transaction_update] and [sync_request]
    ([audit_update] and [sync_response] among them): no state changes and
    nothing is sent, not even an error notice. *)
Theorem server_ignores_other_types
    (rt : Runtime) (ws : Server.conn) (message ty : value) (w : Server.World) :
  getProp message "type" = Normal ty ->
  (forall name,
     In name ["auth"; "stock_update"; "sale_update"; "transaction_update"; "sync_request"] ->
     ty <> VStr name) ->
  Server.onmessage rt ws (Server.Parsed message) w = (Normal tt, w, []).
Proof.
  intros Hty Hother. apply ServerFacts.onmessage_parsed.
  unfold Server.dispatch. rewrite (bind_lift _ _ _ _ Hty). unfold Server.is_type.
  rewrite !strict_eq_other by (apply Hother; cbn; tauto). reflexivity.
Qed.

Lemma server_ignores_other_types_witness :
  Server.onmessage Samples.host 1
    (Server.Parsed (Samples.message "audit_update" [("data", obj [("action", VStr "x")])]))
    Samples.shop = (Normal tt, Samples.shop, []).
Proof.
  apply (server_ignores_other_types Samples.host 1 _ (VStr "audit_update") Samples.shop).
  - reflexivity.
  - intros name Hin [= <-]. cbn in Hin. intuition discriminate.
Defined.

(** X7.  In [src/unnamed/part_000] a message whose [type] is none of
    [auth], [stock_update], [sale_update], [audit_update], [sync_request]
    and [sync_response] ([transaction_update] among them) falls through the
    [switch]: no state changes and nothing is sent. *)
Theorem relay_ignores_other_types
    (ws : Relay.conn) (message ty : value) (w : Relay.World) :
  getProp message "type" = Normal ty ->
  (forall name,
     In name ["auth"; "stock_update"; "sale_update"; "audit_update";
              "sync_request"; "sync_response"] ->
     ty <> VStr name) ->
  Relay.onmessage ws (Relay.Parsed message) w = (Normal tt, w, []).
Proof.
  intros Hty Hother. apply RelayFacts.relay_onmessage_parsed.
  unfold Relay.handleWebSocketMessage. rewrite (bind_lift _ _ _ _ Hty).
  unfold Relay.is_type.
  rewrite !strict_eq_other by (apply Hother; cbn; tauto). reflexivity.
Qed.

Lemma relay_ignores_other_types_witness :
  Relay.onmessage 1
    (Relay.Parsed (Samples.message "transaction_update" [("data", obj [("amount", VNum 5)])]))
    Samples.desk = (Normal tt, Samples.desk, []).
Proof.
  apply (relay_ignores_other_types 1 _ (VStr "transaction_update") Samples.desk).
  - reflexivity.
  - intros name Hin [= <-]. cbn in Hin. intuition discriminate.
Defined.

(** X8.  When the [items] of a sale is truthy and not an array,
    [src/server.ts] has already stored and broadcast the sale when
    [updateStockLevels] throws: the sender (open) gets the [error] notice,
    and the stock and the audit collection are left as they were, no audit
    entry being written or broadcast for the stored sale. *)
Theorem sale_with_malformed_items_is_half_applied
    (rt : Runtime) (ws : Server.conn) (message data items : value) (w : Server.World) :
  getProp message "type" = Normal (VStr "sale_update") ->
  getProp message "data" = Normal data ->
  truthy data = true ->
  getProp data "items" = Normal items ->
  truthy items = true ->
  (forall elems own, items <> VArr elems own) ->
  Server.readyState w ws = Server.OPEN ->
  Server.onmessage rt ws (Server.Parsed message) w =
  (Normal tt,
   Server.set_cache (Server.push_sale (Server.stamped rt data (Server.ticks w)))
     (Server.tick w),
   Server.fanout
     (obj [("type", VStr "sales_updated");
           ("data", arr (Server.sales (Server.cache w)
                         ++ [Server.stamped rt data (Server.ticks w)]))]) w
   ++ [(ws, obj [("type", VStr "error"); ("message", VStr "Failed to process message")])]).
Proof.
  intros Hty Hdata Ht Hitems Hti Hshape Hopen.
  unfold Server.onmessage.
  rewrite (try_catch_throw _ _ w TypeError
             (Server.set_cache (Server.push_sale (Server.stamped rt data (Server.ticks w)))
                (Server.tick w))
             (Server.fanout
                (obj [("type", VStr "sales_updated");
                      ("data", arr (Server.sales (Server.cache w)
                                    ++ [Server.stamped rt data (Server.ticks w)]))]) w)).
  - cbv beta.
    rewrite (ServerFacts.send_open ws Server.error_notice
               (Server.set_cache
                  (Server.push_sale (Server.stamped rt data (Server.ticks w)))
                  (Server.tick w)) Hopen).
    reflexivity.
  - unfold Server.dispatch. ServerFacts.pick_case Hty.
    rewrite (bind_lift _ _ _ _ Hdata), Ht, ServerFacts.bind_now, bind_modify, bind_gets.
    rewrite ServerFacts.bind_broadcast, (bind_lift _ _ _ _ Hitems), Hti.
    assert (Hthrow : forall w1,
               Server.updateStockLevels rt items w1 = (Throw TypeError, w1, [])).
    { intros w1. destruct items; try reflexivity. exfalso. eapply Hshape. reflexivity. }
    rewrite (bind_throws _ _ _ _ _ _ (Hthrow _)).
    cbn. rewrite app_nil_r. reflexivity.
Qed.

Lemma sale_with_malformed_items_witness :
  Server.audit (Server.cache (snd (fst
    (Server.onmessage Samples.host 1
       (Server.Parsed (Samples.message "sale_update" [("data", Samples.sale_single)]))
       Samples.shop)))) = [].
Proof.
  rewrite (sale_with_malformed_items_is_half_applied Samples.host 1
             (Samples.message "sale_update" [("data", Samples.sale_single)])
             Samples.sale_single (Samples.line_item "A1" 3) Samples.shop
             eq_refl eq_refl eq_refl eq_refl eq_refl
             ltac:(intros elems own; discriminate) eq_refl).
  reflexivity.
Defined.

(** X9.  With an empty stock array, [updateStockLevels] of [src/server.ts]
    is a no-op for every array of line items, whatever the line items are
    ([null] included: the callback of [find] that reads [item.id] never
    runs): nothing is thrown and no state changes. *)
Theorem updateStockLevels_on_empty_stock
    (rt : Runtime) (line : list value) (iown own : list (string * value))
    (w : Server.World) :
  Server.stockItems (Server.cache w) = VArr [] own ->
  Server.updateStockLevels rt (VArr line iown) w = (Normal tt, w, []).
Proof.
  intros Hstock. cbn [Server.updateStockLevels].
  induction line as [|item line IH]; [reflexivity|].
  rewrite forEach_cons.
  assert (Hitem : Server.adjustStock rt item w = (Normal tt, w, [])).
  { unfold Server.adjustStock. rewrite bind_gets, Hstock. reflexivity. }
  rewrite (bind_normal _ _ _ _ _ _ Hitem), IH. reflexivity.
Qed.

Lemma updateStockLevels_on_empty_stock_witness :
  Server.updateStockLevels Samples.host (VArr [VNull; Samples.line_item "A1" 3] [])
    (Server.init Samples.ready)
  = (Normal tt, Server.init Samples.ready, []).
Proof.
  apply (updateStockLevels_on_empty_stock Samples.host _ [] [] (Server.init Samples.ready)).
  reflexivity.
Defined.

(** *** [src/server.ts]: what the stock adjustment touches *)

Lemma lookup_define_own_other k k' x l :
  k' <> k -> lookup_own k' (define_own k x l) = lookup_own k' l.
Proof.
  intros Hne. induction l as [|[k0 v0] l IH]; cbn.
  - destruct (String.eqb_spec k' k); [contradiction | reflexivity].
  - destruct (String.eqb_spec k k0) as [->|Hk]; cbn.
    + destruct (String.eqb_spec k' k0); [contradiction | reflexivity].
    + destruct (String.eqb_spec k' k0); [reflexivity | exact IH].
Qed.

Lemma getProp_setProp_other v k x v' k' :
  setProp v k x = Normal v' -> k' <> k -> getProp v' k' = getProp v k'.
Proof.
  intros Hset Hne. destruct v; try discriminate; injection Hset as <-; cbn;
    rewrite (lookup_define_own_other _ _ _ _ Hne); reflexivity.
Qed.

(** The stock has the same length and each item keeps every property but
    [quantity]. *)
Lemma adjusted_touches_quantity_only rt item elems elems' :
  Server.adjusted rt item elems elems' ->
  List.length elems' = List.length elems /\
  forall i s s' k,
    elems !! i = Some s -> elems' !! i = Some s' -> k <> "quantity" ->
    getProp s' k = getProp s k.
Proof.
  intros [Hmiss | i s q d r s' Hi Hn Hfirst Hq Hd Hsub Hset].
  - split; [reflexivity|]. intros i s s' k Hs Hs' _. congruence.
  - split; [apply length_insert|]. intros j s0 s0' k Hs0 Hs0' Hk.
    destruct (Nat.eq_dec i j) as [->|Hij].
    + rewrite list_lookup_insert_eq in Hs0' by (eapply lookup_lt_Some, Hi).
      injection Hs0' as <-. assert (s0 = s) as -> by congruence.
      eapply getProp_setProp_other; eauto.
    + rewrite list_lookup_insert_ne in Hs0' by exact Hij. congruence.
Qed.

Lemma adjusted_all_touches_quantity_only rt line elems elems' :
  Server.adjusted_all rt line elems elems' ->
  List.length elems' = List.length elems /\
  forall i s s' k,
    elems !! i = Some s -> elems' !! i = Some s' -> k <> "quantity" ->
    getProp s' k = getProp s k.
Proof.
  induction 1 as [stock | item items stock mid stock' Hadj Hall [IHlen IH]].
  - split; [reflexivity|]. intros i s s' k Hs Hs' _. congruence.
  - destruct (adjusted_touches_quantity_only rt item stock mid Hadj) as [Hlen Hone].
    split; [congruence|]. intros i s s' k Hs Hs' Hk.
    destruct (lookup_lt_is_Some_2 mid i) as [sm Hsm].
    { rewrite Hlen. eapply lookup_lt_Some, Hs. }
    rewrite (IH i sm s' k Hsm Hs' Hk). apply (Hone i s sm k Hs Hsm Hk).
Qed.

(** X10.  On an array of records, [updateStockLevels] of [src/server.ts]
    given an array of line-item records never throws and touches nothing
    but quantities: the stock collection has as many items as before, in the
    same positions, and each item reads the same under every property other
    than [quantity]; nothing is sent and the rest of the state is as
    before. *)
Theorem updateStockLevels_touches_quantity_only
    (rt : Runtime) (line elems : list value) (iown own : list (string * value))
    (w : Server.World) :
  Server.stockItems (Server.cache w) = VArr elems own ->
  Forall (fun s => Server.record s = true) elems ->
  Forall (fun item => Server.record item = true) line ->
  exists elems',
    Server.updateStockLevels rt (VArr line iown) w =
      (Normal tt, Server.set_cache (Server.set_stockItems (VArr elems' own)) w, [])
    /\ List.length elems' = List.length elems
    /\ forall i s s' k,
         elems !! i = Some s -> elems' !! i = Some s' -> k <> "quantity" ->
         getProp s' k = getProp s k.
Proof.
  intros Hstock Hrec Hline.
  destruct (ServerFacts.forEach_adjustStock rt line elems own w Hstock Hrec Hline)
    as (elems' & Hrun & Hall & _).
  exists elems'. split; [exact Hrun|].
  exact (adjusted_all_touches_quantity_only rt line elems elems' Hall).
Qed.

Lemma updateStockLevels_touches_quantity_only_witness :
  exists elems',
    Server.updateStockLevels Samples.host
      (arr [Samples.line_item "A1" 3; Samples.line_item "ZZ" 1]) Samples.shop =
      (Normal tt,
       Server.set_cache (Server.set_stockItems (VArr elems' [])) Samples.shop, [])
    /\ List.length elems' = 2.
Proof.
  destruct (updateStockLevels_touches_quantity_only Samples.host
              [Samples.line_item "A1" 3; Samples.line_item "ZZ" 1]
              [Samples.stock_item "A1" 10; Samples.stock_item "B2" 5] [] []
              Samples.shop eq_refl)
    as (elems' & Hrun & Hlen & _); [repeat constructor | repeat constructor |].
  exists elems'. split; [exact Hrun | exact Hlen].
Defined.

Lemma find_from_first (pred : value -> completion bool) (l : list value) :
  forall n i s,
    l !! i = Some s ->
    (forall j s0, j < i -> l !! j = Some s0 -> pred s0 = Normal false) ->
    pred s = Normal true ->
    find_from pred n l = Normal (Some (n + i, s)).
Proof.
  induction l as [|x l IH]; intros n i s Hi Hbefore Hhit; [discriminate|].
  destruct i as [|i]; cbn [find_from].
  - injection Hi as ->. rewrite Hhit, Nat.add_0_r. reflexivity.
  - rewrite (Hbefore 0 x ltac:(lia) eq_refl). cbn [cbind].
    rewrite (IH (S n) i s Hi); [f_equal; f_equal; f_equal; lia | | exact Hhit].
    intros j s0 Hj Hs0. apply (Hbefore (S j) s0); [lia | exact Hs0].
Qed.

(** X11.  The callback of [updateStockLevels] in [src/server.ts] subtracts
    without a floor: when the first stock item whose [id] equals the line
    item's is an object with a numeric [quantity] and the line item's
    [quantity] is a number, the stored quantity becomes their IEEE
    difference, also when more is sold than is in stock; no other stock item
    and no other property changes, and nothing is sent or thrown. *)
Theorem adjustStock_subtracts_without_floor
    (rt : Runtime) (item : value) (elems : list value) (own so : list (string * value))
    (i : nat) (q d : float) (w : Server.World) :
  Server.stockItems (Server.cache w) = VArr elems own ->
  elems !! i = Some (VObj so) ->
  (forall j s0, j < i -> elems !! j = Some s0 -> Server.same_id item s0 = Normal false) ->
  Server.same_id item (VObj so) = Normal true ->
  lookup_own "quantity" so = Some (VNum q) ->
  getProp item "quantity" = Normal (VNum d) ->
  Server.adjustStock rt item w =
  (Normal tt,
   Server.set_cache
     (Server.set_stockItems
        (VArr (<[i := VObj (define_own "quantity" (VNum (q - d)%float) so)]> elems) own))
     w,
   []).
Proof.
  intros Hstock Hi Hbefore Hhit Hq Hd. unfold Server.adjustStock.
  rewrite bind_gets, Hstock. unfold find.
  rewrite (bind_lift _ _ _ _ (find_from_first _ elems 0 i (VObj so) Hi Hbefore Hhit)).
  cbn [Nat.add truthy].
  rewrite (bind_lift (getProp (VObj so) "quantity") _ _ (VNum q))
    by (cbn; rewrite Hq; reflexivity).
  rewrite (bind_lift _ _ _ _ Hd).
  rewrite (bind_lift (js_sub rt (VNum q) (VNum d)) _ _ _ eq_refl).
  rewrite (bind_lift (setProp (VObj so) "quantity" _) _ _ _ eq_refl).
  reflexivity.
Qed.

Lemma adjustStock_subtracts_without_floor_witness :
  Server.stockItems (Server.cache (snd (fst
    (Server.adjustStock Samples.host (Samples.line_item "B2" 8) Samples.shop))))
  = arr [Samples.stock_item "A1" 10; Samples.stock_item "B2" (-3)].
Proof.
  rewrite (adjustStock_subtracts_without_floor Samples.host (Samples.line_item "B2" 8)
             [Samples.stock_item "A1" 10; Samples.stock_item "B2" 5] []
             [("id", VStr "B2"); ("quantity", VNum 5)] 1 5 8 Samples.shop
             eq_refl eq_refl).
  - vm_compute. reflexivity.
  - intros [|j] s0 Hj Hs0; [|lia]. injection Hs0 as <-. reflexivity.
  - reflexivity.
  - reflexivity.
  - reflexivity.
Defined.

(** *** [src/server.ts]: the HTTP gateway and the registry *)

Lemma substring_whole (s : string) : String.substring 0 (String.length s) s = s.
Proof. induction s as [|c s IH]; cbn; [reflexivity | rewrite IH; reflexivity]. Qed.

(** A path that starts with [/api/] and whose rest is [clear-cache]. *)
Lemma clear_cache_path (p : string) :
  String.prefix "/api/" p = true ->
  replace_first "/api/" "" p = "clear-cache" ->
  p = "/api/clear-cache".
Proof.
  intros Hpre Hrest.
  assert (Hsplit : p = String.append "/api/" (replace_first "/api/" "" p)).
  { clear Hrest.
    destruct p as [|c1 [|c2 [|c3 [|c4 [|c5 t]]]]]; cbn [String.prefix] in Hpre;
      repeat match type of Hpre with
             | context [ascii_dec ?a ?b] =>
                 destruct (ascii_dec a b); [subst | discriminate Hpre]
             end;
      try discriminate Hpre.
    cbn. rewrite Hpre, Nat.sub_0_r, substring_whole. reflexivity. }
  rewrite Hsplit, Hrest. reflexivity.
Qed.

(** X12.  In [src/server.ts] the only HTTP request that changes anything is
    [POST /api/clear-cache] (handshakes apart): every other request, whatever
    its path and method, leaves the whole state as it is and sends nothing
    to any socket. *)
Theorem server_other_requests_are_read_only
    (rt : Runtime) (socket : completion Server.conn) (req : Server.Request)
    (w : Server.World) :
  Server.upgrade req <> Some "websocket" ->
  Server.pathname req <> "/api/clear-cache" \/ Server.method req <> "POST" ->
  Server.step rt (Server.EvRequest socket req) w = (w, []).
Proof.
  intros Hup Hother. cbn [Server.step]. unfold Server.quiet, Server.handleRequest.
  assert (match Server.upgrade req with
          | Some h => String.eqb h "websocket"
          | None => false
          end = false) as ->.
  { destruct (Server.upgrade req) as [h|]; [|reflexivity].
    destruct (String.eqb_spec h "websocket"); [subst; contradiction | reflexivity]. }
  destruct (String.prefix "/api/" (Server.pathname req)) eqn:Hpre; [|reflexivity].
  cbv zeta. destruct (String.eqb _ "health").
  { rewrite bind_run. unfold get.
    destruct (Server.getLength (Server.stockItems (Server.cache w))); reflexivity. }
  destruct (String.eqb_spec (replace_first "/api/" "" (Server.pathname req)) "clear-cache")
    as [Hpath|_].
  { destruct (String.eqb_spec (Server.method req) "POST") as [Hpost|_]; [|reflexivity].
    exfalso. destruct Hother as [H|H]; [|contradiction].
    apply H, clear_cache_path; assumption. }
  destruct (String.eqb _ "test-supabase"); reflexivity.
Qed.

Lemma server_other_requests_witness :
  Server.step Samples.host
    (Server.EvRequest Samples.no_socket
       {| Server.upgrade := None; Server.pathname := "/api/clear-cache";
          Server.method := "GET" |})
    Samples.shop_audited = (Samples.shop_audited, []).
Proof.
  apply (server_other_requests_are_read_only Samples.host Samples.no_socket _
           Samples.shop_audited).
  - discriminate.
  - right. discriminate.
Defined.

Lemma spread_distinct (own acc : list (string * value)) :
  NoDup (map fst (acc ++ own)) ->
  fold_left (fun a kv => define_own (fst kv) (snd kv) a) own acc = acc ++ own.
Proof.
  revert acc. induction own as [|[k v] own IH]; intros acc Hd; cbn [fold_left].
  - rewrite app_nil_r. reflexivity.
  - assert (Hfresh : define_own k v acc = acc ++ [(k, v)]).
    { assert (Hk : k ∉ map fst acc).
      { rewrite map_app in Hd. apply NoDup_app in Hd as (_ & Hdisj & _).
        intros Hin. apply (Hdisj k Hin). cbn. left. }
      clear -Hk. induction acc as [|[k0 v0] acc IHa]; [reflexivity|].
      cbn in *. apply not_elem_of_cons in Hk as [Hne Hk].
      destruct (String.eqb_spec k k0); [contradiction|]. rewrite IHa by exact Hk.
      reflexivity. }
    cbn [fst snd]. rewrite Hfresh, IH, <- app_assoc; [reflexivity|].
    rewrite <- app_assoc. exact Hd.
Qed.

(** X13.  The record [src/server.ts] stores for a sale or a transaction
    whose payload is an object (with distinct keys, as parsed JSON has) is
    the payload with its [timestamp] set to the server's clock: a timestamp
    supplied by the client is overwritten where it stands, and every other
    property reads as in the payload. *)
Theorem stamped_record_overrides_timestamp_only
    (rt : Runtime) (own : list (string * value)) (n : nat) :
  distinct_keys own ->
  Server.stamped rt (VObj own) n
    = VObj (define_own "timestamp" (VNum (Date_now rt n)) own)
  /\ getProp (Server.stamped rt (VObj own) n) "timestamp" = Normal (VNum (Date_now rt n))
  /\ forall k, k <> "timestamp" ->
       getProp (Server.stamped rt (VObj own) n) k = getProp (VObj own) k.
Proof.
  intros Hd.
  assert (Heq : Server.stamped rt (VObj own) n
                = VObj (define_own "timestamp" (VNum (Date_now rt n)) own)).
  { unfold Server.stamped, spread, obj. cbn [own_enumerable].
    rewrite (spread_distinct own []) by exact Hd. reflexivity. }
  rewrite Heq. split; [reflexivity|]. split.
  - cbn. rewrite ServerFacts.lookup_define_own. reflexivity.
  - intros k Hk. cbn. rewrite lookup_define_own_other by exact Hk. reflexivity.
Qed.

Lemma stamped_record_witness :
  Server.stamped Samples.host
    (obj [("total", VNum 12); ("timestamp", VNum 1); ("customer", VStr "walk-in")]) 0
  = obj [("total", VNum 12); ("timestamp", VNum 1700000000000);
         ("customer", VStr "walk-in")].
Proof.
  unfold obj.
  rewrite (proj1 (stamped_record_overrides_timestamp_only Samples.host
                    [("total", VNum 12); ("timestamp", VNum 1);
                     ("customer", VStr "walk-in")] 0
                    ltac:(unfold distinct_keys; cbn; repeat constructor;
                          rewrite ?elem_of_cons, ?elem_of_nil; intuition discriminate))).
  vm_compute. reflexivity.
Defined.

Lemma set_delete_fresh ws (l : list Server.conn) :
  ~ In ws l -> Server.set_delete ws l = l.
Proof.
  intros Hfresh. unfold Server.set_delete. induction l as [|c l IH]; [reflexivity|].
  cbn. destruct (Nat.eqb_spec c ws) as [->|Hne]; cbn.
  - exfalso. apply Hfresh. left. reflexivity.
  - rewrite IH; [reflexivity|]. intros Hin. apply Hfresh. right. exact Hin.
Qed.

(** X14.  In [src/server.ts] a WebSocket handshake registers the socket it
    yields, keeping every connection registered before; when the socket was
    not registered before, its close gives back the registry as it was
    before the handshake; the cache is untouched all along and nothing is
    sent. *)
Theorem server_handshake_then_close_restores_registry
    (rt : Runtime) (ws : Server.conn) (req : Server.Request) (w : Server.World) :
  Server.upgrade req = Some "websocket" ->
  ~ In ws (Server.connections w) ->
  let w1 := fst (Server.step rt (Server.EvRequest (Normal ws) req) w) in
  let w2 := fst (Server.step rt (Server.EvClose ws) w1) in
  In ws (Server.connections w1)
  /\ (forall c, In c (Server.connections w) -> In c (Server.connections w1))
  /\ Server.connections w2 = Server.connections w
  /\ Server.cache w2 = Server.cache w
  /\ Server.run rt [Server.EvRequest (Normal ws) req; Server.EvClose ws] w
     = (w2, []).
Proof.
  intros Hup Hfresh w1 w2.
  assert (H1 : Server.step rt (Server.EvRequest (Normal ws) req) w
               = (Server.set_connections (Server.set_add ws) w, [])).
  { cbn [Server.step]. unfold Server.quiet, Server.handleRequest. rewrite Hup.
    reflexivity. }
  assert (Hw1 : w1 = Server.set_connections (Server.set_add ws) w)
    by (subst w1; rewrite H1; reflexivity).
  assert (Hadd : Server.set_add ws (Server.connections w) = Server.connections w ++ [ws]).
  { unfold Server.set_add.
    destruct (existsb (Nat.eqb ws) (Server.connections w)) eqn:E; [|reflexivity].
    apply ServerRegistry.existsb_eqb_In in E. contradiction. }
  assert (Hw2 : Server.connections w2 = Server.connections w).
  { subst w2. rewrite Hw1. cbn. rewrite Hadd. unfold Server.set_delete.
    rewrite List.filter_app. cbn. rewrite Nat.eqb_refl. cbn. rewrite app_nil_r.
    apply set_delete_fresh, Hfresh. }
  split; [rewrite Hw1; cbn; apply ServerRegistry.set_add_In; left; reflexivity|].
  split; [intros c Hc; rewrite Hw1; cbn; apply ServerRegistry.set_add_In; right; exact Hc|].
  split; [exact Hw2|]. split; [subst w2; rewrite Hw1; reflexivity|].
  rewrite ServerFacts.run_two. subst w2 w1. rewrite H1. reflexivity.
Qed.

Lemma server_handshake_then_close_witness :
  Server.connections
    (fst (Server.step Samples.host (Server.EvClose 7)
       (fst (Server.step Samples.host
          (Server.EvRequest (Normal 7)
             {| Server.upgrade := Some "websocket"; Server.pathname := "/";
                Server.method := "GET" |}) Samples.shop))))
  = Server.connections Samples.shop.
Proof.
  pose proof (server_handshake_then_close_restores_registry Samples.host 7
                {| Server.upgrade := Some "websocket"; Server.pathname := "/";
                   Server.method := "GET" |} Samples.shop eq_refl
                ltac:(cbn; intuition discriminate)) as H.
  cbv zeta in H. destruct H as (_ & _ & H & _). exact H.
Defined.

(** *** [src/unnamed/part_000]: what a WebSocket frame cannot do *)
Module RelayFrame.
Import Relay.

#[global] Instance relay_registry_preorder : PreOrder relay_registry.
Proof.
  split.
  - intros w. split; reflexivity.
  - intros w1 w2 w3 [Hc1 Hr1] [Hc2 Hr2]. split; congruence.
Qed.

#[global] Instance relay_cache_preorder message :
  PreOrder (relay_cache_unless_sync message).
Proof.
  split.
  - intros w. left. reflexivity.
  - intros w1 w2 w3 [H1|H1] [H2|H2]; try (right; assumption). left. congruence.
Qed.

Section Handlers.
Variable R : World -> World -> Prop.
Context `{!PreOrder R}.

Lemma relay_keeps_send ws message : keeps R (send ws message).
Proof.
  unfold send. frame keeps_bind; [frame keeps_gets|]. intros state.
  destruct (Nat.eqb state OPEN); [frame keeps_emit | frame keeps_throw].
Qed.

Lemma relay_keeps_broadcast message : keeps R (broadcast message).
Proof.
  unfold broadcast. frame keeps_bind; [frame keeps_gets|]. intros conns.
  frame keeps_forEach. intros c. unfold deliver.
  frame keeps_bind; [frame keeps_gets|]. intros state.
  destruct (Nat.eqb state OPEN); [frame relay_keeps_send | frame keeps_ret].
Qed.

(** The router keeps every order on states that each of its two writes, to
    the sessions and to the cache, respects. *)
Lemma relay_keeps_router ws message :
  (forall ut un w,
     R w (set_sessions (insert ws {| userType := ut; userName := un;
                                     authenticated := VBool true |}) w)) ->
  (forall data w,
     getProp message "type" = Normal (VStr "sync_response") ->
     R w (set_cache (fun c => Object_assign c data) w)) ->
  keeps R (handleWebSocketMessage ws message).
Proof.
  intros Hsession Hsync. unfold handleWebSocketMessage.
  frame keeps_bind_lift. intros ty Hty.
  destruct (is_type ty "auth").
  { repeat (frame keeps_bind; [frame keeps_lift|]; intros ?).
    frame keeps_bind; [|intros _; frame relay_keeps_send].
    apply keeps_modify. intros w. apply Hsession. }
  do 3 (match goal with
        | |- keeps _ (if ?b then _ else _) =>
            destruct b;
            [frame keeps_bind; [frame keeps_lift|]; intros ?; frame relay_keeps_broadcast|]
        end).
  destruct (is_type ty "sync_request").
  { frame keeps_bind; [frame keeps_gets|]. intros c. frame relay_keeps_send. }
  destruct (is_type ty "sync_response") eqn:E; [|frame keeps_ret].
  apply strict_eq_str in E. subst ty.
  frame keeps_bind; [frame keeps_lift|]. intros data.
  apply keeps_modify. intros w. apply Hsync, Hty.
Qed.

End Handlers.

End RelayFrame.

(** X15.  Whatever frame arrives, [ws.onmessage] of [src/unnamed/part_000]
    completes without an exception, leaves the registry and the state of
    every transport as they are, and leaves the cache as it is unless the
    frame is a [sync_response] message. *)
Theorem relay_frame_effect (ws : Relay.conn) (f : Relay.frame) (w : Relay.World) :
  fst (fst (Relay.onmessage ws f w)) = Normal tt
  /\ Relay.connections (snd (fst (Relay.onmessage ws f w))) = Relay.connections w
  /\ Relay.readyState (snd (fst (Relay.onmessage ws f w))) = Relay.readyState w
  /\ (Relay.cache (snd (fst (Relay.onmessage ws f w))) = Relay.cache w
      \/ exists message,
           f = Relay.Parsed message
           /\ getProp message "type" = Normal (VStr "sync_response")).
Proof.
  assert (Hreg : keeps relay_registry (Relay.onmessage ws f)).
  { unfold Relay.onmessage. frame keeps_try_catch; [|intros e; frame keeps_ret].
    destruct f; [frame keeps_throw|].
    frame RelayFrame.relay_keeps_router; intros; split; reflexivity. }
  split.
  { unfold Relay.onmessage, try_catch.
    match goal with |- context [match ?b w with _ => _ end] => destruct (b w) as [[[[]|e] w1] o1] end;
      reflexivity. }
  destruct (Relay.onmessage ws f w) as [[r w1] o] eqn:E. cbn [fst snd].
  destruct (Hreg w r w1 o E) as [Hc Hr]. split; [exact Hc|]. split; [exact Hr|].
  destruct f as [|message].
  - left. revert E. unfold Relay.onmessage, try_catch, throw, ret. intros [= _ <- _].
    reflexivity.
  - assert (Hcache : keeps (relay_cache_unless_sync message)
                       (Relay.onmessage ws (Relay.Parsed message))).
    { unfold Relay.onmessage. frame keeps_try_catch; [|intros e; frame keeps_ret].
      frame RelayFrame.relay_keeps_router.
      - intros. left. reflexivity.
      - intros data w0 Hty. right. exact Hty. }
    destruct (Hcache w r w1 o E) as [H|H]; [left; exact H | right; eauto].
Qed.

(** A field of the cache after [Object.assign], read off the source object. *)
Lemma field_after_assign (field : Relay.Cache -> value) (key : string)
    (own : list (string * value)) :
  (forall c k v, k <> key -> field (Relay.assign_one c (k, v)) = field c) ->
  (forall c v, field (Relay.assign_one c (key, v)) = v) ->
  distinct_keys own ->
  forall c,
    field (fold_left Relay.assign_one own c)
    = match lookup_own key own with Some v => v | None => field c end.
Proof.
  intros Hother Hkey. unfold distinct_keys.
  induction own as [|[k v] own IH]; intros Hd c; [reflexivity|].
  cbn [map fst] in Hd. apply NoDup_cons in Hd as [Hk Hd].
  cbn [fold_left lookup_own]. rewrite (IH Hd).
  destruct (String.eqb_spec key k) as [<-|Hne].
  - assert (lookup_own key own = None) as ->.
    { clear -Hk. induction own as [|[k0 v0] own IH]; [reflexivity|]. cbn in *.
      apply not_elem_of_cons in Hk as [Hne Hk].
      destruct (String.eqb_spec key k0); [contradiction | exact (IH Hk)]. }
    apply Hkey.
  - rewrite Hother by congruence. reflexivity.
Qed.

Ltac assign_cases :=
  intros; unfold Relay.assign_one; cbn [fst snd];
  repeat match goal with
         | |- context [String.eqb ?a ?b] =>
             destruct (String.eqb_spec a b); try congruence; try reflexivity
         end;
  repeat match goal with
         | |- context [if ?b then _ else _] => destruct b; try reflexivity
         | |- context [match ?v with VUndef => _ | _ => _ end] => destruct v; try reflexivity
         end.

(** X16.  A [sync_response] message whose [data] is an object makes
    [src/unnamed/part_000] merge it into the cache field by field: each of
    the four collections becomes the value [data] gives it, whatever that
    value is, and stays as it was when [data] does not name it; nothing is
    sent, and registry and sessions are untouched. *)
Theorem sync_response_merges_fields
    (ws : Relay.conn) (message : value) (own : list (string * value)) (w : Relay.World) :
  getProp message "type" = Normal (VStr "sync_response") ->
  getProp message "data" = Normal (VObj own) ->
  distinct_keys own ->
  exists c',
    Relay.onmessage ws (Relay.Parsed message) w =
      (Normal tt, Relay.set_cache (fun _ => c') w, [])
    /\ Relay.stockItems c'
       = match lookup_own "stockItems" own with
         | Some v => v | None => Relay.stockItems (Relay.cache w) end
    /\ Relay.sales c'
       = match lookup_own "sales" own with
         | Some v => v | None => Relay.sales (Relay.cache w) end
    /\ Relay.transactions c'
       = match lookup_own "transactions" own with
         | Some v => v | None => Relay.transactions (Relay.cache w) end
    /\ Relay.audit c'
       = match lookup_own "audit" own with
         | Some v => v | None => Relay.audit (Relay.cache w) end.
Proof.
  intros Hty Hdata Hd. exists (Relay.Object_assign (Relay.cache w) (VObj own)).
  split.
  { apply RelayFacts.relay_onmessage_parsed. unfold Relay.handleWebSocketMessage.
    RelayFacts.pick_case Hty. rewrite (bind_lift _ _ _ _ Hdata). reflexivity. }
  unfold Relay.Object_assign. cbn [own_enumerable].
  repeat split; apply field_after_assign; try exact Hd; assign_cases.
Qed.

Lemma sync_response_merges_fields_witness :
  exists c',
    Relay.onmessage 1
      (Relay.Parsed (Samples.message "sync_response"
         [("data", obj [("sales", arr [Samples.sale]); ("note", VStr "x")])]))
      Samples.desk
    = (Normal tt, Relay.set_cache (fun _ => c') Samples.desk, [])
    /\ Relay.sales c' = arr [Samples.sale]
    /\ Relay.stockItems c' = arr [].
Proof.
  destruct (sync_response_merges_fields 1
              (Samples.message "sync_response"
                 [("data", obj [("sales", arr [Samples.sale]); ("note", VStr "x")])])
              [("sales", arr [Samples.sale]); ("note", VStr "x")] Samples.desk
              eq_refl eq_refl
              ltac:(unfold distinct_keys; cbn; repeat constructor;
                    rewrite ?elem_of_cons, ?elem_of_nil; intuition discriminate))
    as (c' & Hrun & Hstock & Hsales & _).
  exists c'. split; [exact Hrun|]. split; [exact Hsales | exact Hstock].
Defined.

(** *** [src/unnamed/part_000]: the HTTP API *)


(** What [api] can do: answer without touching anything, throw without
    having touched anything, or store and broadcast a posted record; it
    never answers 500 itself. *)
Lemma api_outcome (req : Relay.Request) (w : Relay.World) :
  (exists e, Relay.api req w = (Throw e, w, []))
  \/ (exists status body,
        Relay.api req w = (Normal (Relay.ApiResponse status body), w, [])
        /\ status <> 500)
  \/ (exists w' out,
        Relay.api req w = (Normal Relay.success, w', out)
        /\ Relay.method req = "POST").
Proof.
  unfold Relay.api. cbv zeta.
  assert (Hnf : forall w0 : Relay.World,
            exists status body,
              (Normal (Relay.ApiResponse 404 (Some (obj [("error", VStr "Not found")]))),
               w0, @nil Relay.Send)
              = (Normal (Relay.ApiResponse status body), w0, []) /\ status <> 500).
  { intros w0. eexists _, _. split; [reflexivity | discriminate]. }
  assert (Hpost : forall field setter type,
            String.eqb (Relay.method req) "POST" = true ->
            (exists e,
               (data <- lift (Relay.json req) ;;
                c <- gets Relay.cache ;;
                items <- lift (push (field c) data) ;;
                modify (Relay.set_cache (setter items)) ;;;
                Relay.broadcast (obj [("type", VStr type); ("data", data)]) ;;;
                ret Relay.success)%eff w = (Throw e, w, []))
            \/ (exists w' out,
                  (data <- lift (Relay.json req) ;;
                   c <- gets Relay.cache ;;
                   items <- lift (push (field c) data) ;;
                   modify (Relay.set_cache (setter items)) ;;;
                   Relay.broadcast (obj [("type", VStr type); ("data", data)]) ;;;
                   ret Relay.success)%eff w = (Normal Relay.success, w', out)
                  /\ Relay.method req = "POST")).
  { intros field setter type Hm. apply String.eqb_eq in Hm.
    destruct (Relay.json req) as [data|e]; [|left; eexists; reflexivity].
    rewrite (bind_lift _ _ _ data eq_refl), bind_gets.
    destruct (field (Relay.cache w)) eqn:Ef;
      try (left; eexists; reflexivity).
    right. eexists _, _. split; [|exact Hm].
    rewrite (bind_lift (push (VArr elems own) data) _ _ _ eq_refl).
    rewrite bind_modify, RelayFacts.relay_bind_broadcast. reflexivity. }
  destruct (String.eqb (Relay.pathname req) "/api/stock").
  { destruct (String.eqb (Relay.method req) "GET").
    { right; left. rewrite bind_gets. eexists _, _. split; [reflexivity | discriminate]. }
    destruct (String.eqb (Relay.method req) "POST") eqn:Hm; [|right; left; apply Hnf].
    destruct (Hpost Relay.stockItems Relay.set_stockItems "stock_update" eq_refl)
      as [H|H]; [left; exact H | right; right; exact H]. }
  destruct (String.eqb (Relay.pathname req) "/api/sales").
  { destruct (String.eqb (Relay.method req) "GET").
    { right; left. rewrite bind_gets. eexists _, _. split; [reflexivity | discriminate]. }
    destruct (String.eqb (Relay.method req) "POST") eqn:Hm; [|right; left; apply Hnf].
    destruct (Hpost Relay.sales Relay.set_sales "sale_update" eq_refl)
      as [H|H]; [left; exact H | right; right; exact H]. }
  destruct (String.eqb (Relay.pathname req) "/api/audit").
  { destruct (String.eqb (Relay.method req) "GET").
    { right; left. rewrite bind_gets. eexists _, _. split; [reflexivity | discriminate]. }
    destruct (String.eqb (Relay.method req) "POST") eqn:Hm; [|right; left; apply Hnf].
    destruct (Hpost Relay.audit Relay.set_audit "audit_update" eq_refl)
      as [H|H]; [left; exact H | right; right; exact H]. }
  destruct (String.eqb (Relay.pathname req) "/api/settings").
  { destruct (String.eqb (Relay.method req) "GET"); [|right; left; apply Hnf].
    right; left. eexists _, _. split; [reflexivity | discriminate]. }
  destruct (String.eqb (Relay.pathname req) "/api/login"); [|right; left; apply Hnf].
  destruct (String.eqb (Relay.method req) "POST"); [|right; left; apply Hnf].
  destruct (Relay.json req) as [body|e]; [|left; eexists; reflexivity].
  rewrite (bind_lift _ _ _ body eq_refl).
  destruct (getProp body "loginType") as [lt|e] eqn:Elt; [|left; eexists; reflexivity].
  rewrite (bind_lift _ _ _ lt eq_refl).
  destruct (getProp body "password") as [pw|e] eqn:Epw; [|left; eexists; reflexivity].
  rewrite (bind_lift _ _ _ pw eq_refl).
  right; left.
  destruct (_ || _); eexists _, _; (split; [reflexivity | discriminate]).
Qed.

(** X17.  [handleAPI] of [src/unnamed/part_000] always answers: whatever
    the request (a body that is not JSON, a cached collection that is no
    longer an array, a [null] login body), no exception escapes it; and
    whenever it answers 500 it has changed no state and sent nothing. *)
Theorem handleAPI_always_answers (req : Relay.Request) (w : Relay.World) :
  exists status body w' out,
    Relay.handleAPI req w = (Normal (Relay.ApiResponse status body), w', out)
    /\ (status = 500 -> w' = w /\ out = []).
Proof.
  unfold Relay.handleAPI.
  destruct (String.eqb (Relay.method req) "OPTIONS").
  { eexists _, _, _, _. split; [reflexivity | discriminate]. }
  unfold try_catch.
  destruct (api_outcome req w) as [[e H] | [(status & body & H & Hs) | (w' & out & H & _)]];
    rewrite H.
  - eexists _, _, _, _. split; [reflexivity|]. intros _. split; reflexivity.
  - eexists _, _, _, _. split; [reflexivity|]. intros ->. contradiction.
  - eexists _, _, _, _. split; [reflexivity | discriminate].
Qed.

(** X18.  In [src/unnamed/part_000] only a [POST] writes: every HTTP
    request with another method (handshakes on [/ws] apart) leaves the whole
    state as it is and sends nothing to any socket. *)
Theorem relay_only_post_writes
    (socket : completion Relay.conn) (req : Relay.Request) (w : Relay.World) :
  Relay.pathname req <> "/ws" ->
  Relay.method req <> "POST" ->
  Relay.step (Relay.EvRequest socket req) w = (w, []).
Proof.
  intros Hws Hpost. cbn [Relay.step]. unfold Relay.quiet, Relay.handleRequest.
  destruct (String.eqb_spec (Relay.pathname req) "/ws"); [contradiction|].
  destruct (String.prefix "/api/" (Relay.pathname req)); [|reflexivity].
  unfold Relay.handleAPI.
  destruct (String.eqb (Relay.method req) "OPTIONS"); [reflexivity|].
  unfold try_catch.
  destruct (api_outcome req w) as [[e H] | [(status & body & H & Hs) | (w' & out & H & Hm)]];
    [rewrite H; reflexivity | rewrite H; reflexivity | contradiction].
Qed.

Lemma relay_only_post_writes_witness :
  Relay.step
    (Relay.EvRequest Samples.no_socket
       {| Relay.upgrade := None; Relay.pathname := "/api/sales";
          Relay.method := "DELETE"; Relay.json := Throw Rejected |})
    Samples.desk = (Samples.desk, []).
Proof.
  apply (relay_only_post_writes Samples.no_socket _ Samples.desk); discriminate.
Defined.




(** X20.  [POST /api/login] of [src/unnamed/part_000] accepts exactly two
    credentials, [user] with [123456] and [admin] with [esubalew2123], both
    as strings: it answers them with the role and its display name, answers
    every other pair (another type, another case, a missing field) with 401,
    and in no case changes any state, creates a session or sends
    anything. *)
Theorem login_accepts_two_credentials_only
    (socket : completion Relay.conn) (req : Relay.Request) (body lt pw : value)
    (w : Relay.World) :
  Relay.pathname req = "/api/login" ->
  Relay.method req = "POST" ->
  Relay.json req = Normal body ->
  getProp body "loginType" = Normal lt ->
  getProp body "password" = Normal pw ->
  Relay.handleRequest socket req w =
  (Normal
     (if strict_eq lt (VStr "user") && strict_eq pw (VStr "123456")
      then Relay.ApiResponse 200 (Some (obj [("success", VBool true);
                                             ("userType", VStr "user");
                                             ("userName", VStr "User")]))
      else if strict_eq lt (VStr "admin") && strict_eq pw (VStr "esubalew2123")
      then Relay.ApiResponse 200 (Some (obj [("success", VBool true);
                                             ("userType", VStr "admin");
                                             ("userName", VStr "Esubalew Biyazin")]))
      else Relay.ApiResponse 401 (Some (obj [("success", VBool false);
                                             ("message", VStr "Invalid credentials")]))),
   w, [])
  /\ (strict_eq lt (VStr "user") && strict_eq pw (VStr "123456") = true
      <-> lt = VStr "user" /\ pw = VStr "123456")
  /\ (strict_eq lt (VStr "admin") && strict_eq pw (VStr "esubalew2123") = true
      <-> lt = VStr "admin" /\ pw = VStr "esubalew2123").
Proof.
  intros Hpath Hmethod Hjson Hlt Hpw. split.
  - unfold Relay.handleRequest, Relay.handleAPI, Relay.api. cbv zeta.
    rewrite Hpath, Hmethod.
    change (String.prefix "/api/" "/api/login") with true.
    cbn [String.eqb Ascii.eqb Bool.eqb]. unfold try_catch.
    rewrite (bind_lift _ _ _ _ Hjson), (bind_lift _ _ _ _ Hlt), (bind_lift _ _ _ _ Hpw).
    destruct (strict_eq lt (VStr "user") && strict_eq pw (VStr "123456")) eqn:Euser.
    + apply andb_true_iff in Euser as [Eu _]. apply strict_eq_str in Eu. subst lt.
      reflexivity.
    + cbn [orb].
      destruct (strict_eq lt (VStr "admin") && strict_eq pw (VStr "esubalew2123"))
        eqn:Eadmin; [|reflexivity].
      apply andb_true_iff in Eadmin as [Ea _]. apply strict_eq_str in Ea. subst lt.
      reflexivity.
  - split; rewrite andb_true_iff, !strict_eq_str; reflexivity.
Qed.

Lemma login_accepts_two_credentials_witness :
  Relay.handleRequest Samples.no_socket
    {| Relay.upgrade := None; Relay.pathname := "/api/login"; Relay.method := "POST";
       Relay.json := Normal (obj [("loginType", VStr "admin");
                                  ("password", VStr "Esubalew2123")]) |}
    Samples.desk
  = (Normal (Relay.ApiResponse 401 (Some (obj [("success", VBool false);
                                               ("message", VStr "Invalid credentials")]))),
     Samples.desk, []).
Proof.
  apply (proj1 (login_accepts_two_credentials_only Samples.no_socket
                  {| Relay.upgrade := None; Relay.pathname := "/api/login";
                     Relay.method := "POST";
                     Relay.json := Normal (obj [("loginType", VStr "admin");
                                                ("password", VStr "Esubalew2123")]) |}
                  (obj [("loginType", VStr "admin"); ("password", VStr "Esubalew2123")])
                  (VStr "admin") (VStr "Esubalew2123") Samples.desk
                  eq_refl eq_refl eq_refl eq_refl eq_refl)).
Defined.

(** X21.  In [src/server.ts] a second accepted [auth] on a connection
    overwrites its session: after two of them the session table is the
    original one with that connection mapped to the fields of the second
    message and the second reading of the clock; no other connection's
    session changes, and the cache is untouched. *)
Theorem second_auth_overwrites_session
    (rt : Runtime) (ws : Server.conn) (m1 m2 ut1 un1 ut2 un2 : value)
    (w : Server.World) :
  getProp m1 "type" = Normal (VStr "auth") ->
  getProp m1 "userType" = Normal ut1 -> getProp m1 "userName" = Normal un1 ->
  truthy ut1 = true -> truthy un1 = true ->
  getProp m2 "type" = Normal (VStr "auth") ->
  getProp m2 "userType" = Normal ut2 -> getProp m2 "userName" = Normal un2 ->
  truthy ut2 = true -> truthy un2 = true ->
  Server.readyState w ws = Server.OPEN ->
  let w' := fst (Server.run rt [Server.EvMessage ws (Server.Parsed m1);
                                Server.EvMessage ws (Server.Parsed m2)] w) in
  Server.sessions w'
  = <[ws := {| Server.userType := ut2; Server.userName := un2;
               Server.timestamp := VNum (Date_now rt (S (Server.ticks w))) |}]>
      (Server.sessions w)
  /\ (forall c, c <> ws -> Server.sessions w' !! c = Server.sessions w !! c)
  /\ Server.cache w' = Server.cache w.
Proof.
  intros Hty1 Hut1 Hun1 Tut1 Tun1 Hty2 Hut2 Hun2 Tut2 Tun2 Hopen w'.
  set (w1 := Server.set_sessions
               (insert ws {| Server.userType := ut1; Server.userName := un1;
                             Server.timestamp := VNum (Date_now rt (Server.ticks w)) |})
               (Server.tick w)).
  assert (H1 : Server.step rt (Server.EvMessage ws (Server.Parsed m1)) w
               = (w1, [(ws, Server.initial_data (Server.cache w))])).
  { cbn [Server.step]. unfold Server.quiet.
    rewrite (ServerFacts.onmessage_parsed rt ws m1 w _ _
               (ServerFacts.dispatch_auth_accepted rt ws m1 ut1 un1 w
                  Hty1 Hut1 Hun1 Tut1 Tun1 Hopen)).
    reflexivity. }
  assert (H2 : Server.step rt (Server.EvMessage ws (Server.Parsed m2)) w1
               = (Server.set_sessions
                    (insert ws {| Server.userType := ut2; Server.userName := un2;
                                  Server.timestamp :=
                                    VNum (Date_now rt (Server.ticks w1)) |})
                    (Server.tick w1),
                  [(ws, Server.initial_data (Server.cache w1))])).
  { cbn [Server.step]. unfold Server.quiet.
    rewrite (ServerFacts.onmessage_parsed rt ws m2 w1 _ _
               (ServerFacts.dispatch_auth_accepted rt ws m2 ut2 un2 w1
                  Hty2 Hut2 Hun2 Tut2 Tun2 Hopen)).
    reflexivity. }
  assert (Hs : Server.sessions w'
               = <[ws := {| Server.userType := ut2; Server.userName := un2;
                            Server.timestamp := VNum (Date_now rt (S (Server.ticks w))) |}]>
                   (Server.sessions w)).
  { subst w'. rewrite ServerFacts.run_two, H1. cbn [fst snd]. rewrite H2.
    cbn. apply insert_insert_eq. }
  split; [exact Hs|]. split.
  - intros c Hc. rewrite Hs. apply lookup_insert_ne. congruence.
  - subst w'. rewrite ServerFacts.run_two, H1. cbn [fst snd]. rewrite H2. reflexivity.
Qed.

Lemma second_auth_overwrites_session_witness :
  Server.sessions
    (fst (Server.run Samples.host
            [Server.EvMessage 1 (Server.Parsed Samples.auth_message);
             Server.EvMessage 1 (Server.Parsed
               (Samples.message "auth" [("userType", VStr "user");
                                        ("userName", VStr "Till 2")]))]
            Samples.shop)) !! 1
  = Some {| Server.userType := VStr "user"; Server.userName := VStr "Till 2";
            Server.timestamp := VNum (Date_now Samples.host 1) |}.
Proof.
  pose proof (second_auth_overwrites_session Samples.host 1 Samples.auth_message
                (Samples.message "auth" [("userType", VStr "user");
                                         ("userName", VStr "Till 2")])
                (VStr "admin") (VStr "Esubalew") (VStr "user") (VStr "Till 2")
                Samples.shop eq_refl eq_refl eq_refl eq_refl eq_refl
                eq_refl eq_refl eq_refl eq_refl eq_refl eq_refl) as H.
  cbv zeta in H. destruct H as (H & _). rewrite H. apply lookup_insert_eq.
Defined.
